(** * keithleygui: sweep arithmetic, connection poller and worker hand-off

    A shallow embedding of the coordination logic of the keithleygui
    application ([keithleygui/main.py] and the measurement tabs under
    [keithleygui/measurements/]).

    Conventions of the embedding:
    - Python floats (spin-box values, voltages, times) are exact rationals
      [Q]; rounding, infinities and memory limits of the machine are outside
      the model.  Numeric results are compared with [==] (Qeq).
    - A Python dictionary with string keys is a [gmap string pyval].
    - A callback that can raise is a computation in the monad [M]: it
      threads the application state and ends in [Return v] or [Raise e];
      the state reached when an exception is raised is kept, as in Python.
    - The instrument driver (package keithley2600), Qt and numpy are
      external: the parts of them the code relies on are modelled from
      their documented behaviour and named after the calls the code makes. *)

From Stdlib Require Import QArith Qround Qabs Lqa ZArith Lia String Ascii List Sorted.
From stdpp Require Import gmap strings list.
Import ListNotations.

Local Open Scope Q_scope.

(** ** Python exceptions and results *)

Inductive exn : Type :=
| ValueError (msg : string)
| OverflowError (msg : string)
| TypeError (msg : string)
| KeyError (key : string)
| AttributeError (name : string)
| ZeroDivisionError (msg : string).

Inductive result (A : Type) : Type :=
| Return (a : A)
| Raise (e : exn).
Arguments Return {A} a.
Arguments Raise {A} e.

Definition is_return {A} (r : result A) : bool :=
  match r with Return _ => true | Raise _ => false end.

(** ** numpy: [np.sign] and [np.arange] on floats *)

Definition np_sign (x : Q) : Q :=
  match Qcompare x 0 with
  | Lt => -1
  | Eq => 0
  | Gt => 1
  end.

(** Element [i] of an arange. *)
Definition arange_item (start step : Q) (i : nat) : Q :=
  start + inject_Z (Z.of_nat i) * step.

(** [np.arange(start, stop, step)]: the length is
    [ceil((stop - start) / step)]; element 0 is [start] and element [i] is
    [start + i * step].  A zero step makes the quotient nan (0/0) or
    infinite, and numpy raises while computing the length. *)
Definition np_arange (start stop step : Q) : result (list Q) :=
  if Qeq_bool step 0 then
    if Qeq_bool (stop - start) 0
    then Raise (ValueError "arange: cannot compute length")
    else Raise (OverflowError "arange: overflow while computing length")
  else
    let len := Qceiling ((stop - start) / step) in
    if (len <=? 0)%Z then Return []
    else Return (start ::
                 map (arange_item start step) (seq 1 (Z.to_nat len - 1))).




(** ** Python values, strings and dictionaries *)

Local Open Scope string_scope.

(** Elements of the voltage lists: a float or a string token. *)
Inductive atom : Type :=
| AFloat (q : Q)
| AStr (s : string).

Inductive pyval : Type :=
| VFloat (q : Q)
| VStr (s : string)
| VBool (b : bool)
| VSmu (name : string)   (* the SMU object [getattr(keithley, name)] *)
| VList (l : list atom).

(** [x in s] on strings: [sub] occurs somewhere in [s]. *)
Fixpoint str_in (sub s : string) {struct s} : bool :=
  if String.prefix sub s then true
  else match s with
       | EmptyString => false
       | String _ rest => str_in sub rest
       end.

(** [s.split(',')]: always at least one piece. *)
Fixpoint split_comma (s : string) : list string :=
  match s with
  | EmptyString => [EmptyString]
  | String c rest =>
      if Ascii.eqb c "," then EmptyString :: split_comma rest
      else match split_comma rest with
           | [] => [String c EmptyString]
           | w :: ws => String c w :: ws
           end
  end.

(** [d[key]] and [d[key] = v] on an object that is a dictionary or [None]. *)
Definition getitem (d : gmap string pyval) (key : string) : result pyval :=
  match d !! key with
  | Some v => Return v
  | None => Raise (KeyError key)
  end.

Definition setitem (o : option (gmap string pyval)) (key : string) (v : pyval)
  : result (gmap string pyval) :=
  match o with
  | Some d => Return (<[key := v]> d)
  | None => Raise (TypeError "'NoneType' object does not support item assignment")
  end.

Definition get_float (d : gmap string pyval) (key : string) : result Q :=
  match getitem d key with
  | Return (VFloat q) => Return q
  | Return _ => Raise (TypeError "unsupported operand type(s)")
  | Raise e => Raise e
  end.

(** [a / b] on floats. *)
Definition py_div (a b : Q) : result Q :=
  if Qeq_bool b 0 then Raise (ZeroDivisionError "float division by zero")
  else Return (a / b).

(** [[f(x) for x in l]]: stops at the first exception. *)
Fixpoint list_comprehension {A B} (f : A -> result B) (l : list A)
  : result (list B) :=
  match l with
  | [] => Return []
  | x :: xs =>
      match f x with
      | Raise e => Raise e
      | Return y =>
          match list_comprehension f xs with
          | Raise e => Raise e
          | Return ys => Return (y :: ys)
          end
      end
  end.

(** A decimal literal: optional blanks, optional sign, digits, optional
    fraction.  It is one instance of Python's [float], used for the
    concrete runs below. *)
Definition digit_of (c : ascii) : option Z :=
  let n := nat_of_ascii c in
  if (48 <=? n)%nat && (n <=? 57)%nat then Some (Z.of_nat n - 48)%Z else None.

Fixpoint strip_left (s : string) : string :=
  match s with
  | String c rest => if Ascii.eqb c " " then strip_left rest else s
  | EmptyString => EmptyString
  end.

(** Digits after the point; [num # den] is the value so far, [seen] tells
    whether a digit was read. *)
Fixpoint frac_digits (s : string) (num : Z) (den : positive) (seen : bool)
  : option Q :=
  match s with
  | EmptyString => if seen then Some (num # den) else None
  | String c rest =>
      match digit_of c with
      | Some d => frac_digits rest (10 * num + d)%Z (10 * den)%positive true
      | None =>
          if Ascii.eqb c " " then
            match strip_left rest with
            | EmptyString => if seen then Some (num # den) else None
            | _ => None
            end
          else None
      end
  end.

(** Digits before the point. *)
Fixpoint int_digits (s : string) (num : Z) (seen : bool) : option Q :=
  match s with
  | EmptyString => if seen then Some (num # 1) else None
  | String c rest =>
      match digit_of c with
      | Some d => int_digits rest (10 * num + d)%Z true
      | None =>
          if Ascii.eqb c "." then frac_digits rest num 1%positive seen
          else if Ascii.eqb c " " then
            match strip_left rest with
            | EmptyString => if seen then Some (num # 1) else None
            | _ => None
            end
          else None
      end
  end.

Definition decimal_literal (s : string) : option Q :=
  match strip_left s with
  | String "-" rest => option_map Qopp (int_digits rest 0 false)
  | String "+" rest => int_digits rest 0 false
  | s' => int_digits s' 0 false
  end.


(** ** The instrument driver (package keithley2600) *)

Inductive sense_mode : Type := SENSE_LOCAL | SENSE_REMOTE.

(** The attributes of an SMU object that the application writes. *)
Record Smu : Type := mkSmu {
  sense : sense_mode;
  source_limiti : Q;
  trigger_source_limiti : Q;
  source_limitv : Q;
  trigger_source_limitv : Q }.

(** The driver object: its flags, [localnode.linefreq], its SMU objects
    by name (what [getattr(keithley, name)] finds) and the abort event. *)
Record Keithley : Type := mkKeithley {
  connected : bool;
  busy : bool;
  linefreq : Q;
  smus : gmap string Smu;
  abort_event : bool }.

Definition disconnect (k : Keithley) : Keithley :=
  mkKeithley false (busy k) (linefreq k) (smus k) (abort_event k).

Definition with_smus (k : Keithley) (m : gmap string Smu) : Keithley :=
  mkKeithley (connected k) (busy k) (linefreq k) m (abort_event k).

Definition getattr (k : Keithley) (name : string) : result Smu :=
  match smus k !! name with
  | Some smu => Return smu
  | None => Raise (AttributeError name)
  end.

Inductive SweepData : Type :=
| IVSweepData (vSweep iSweep : list Q)
| TransistorSweepData (sweep_type : string) (data : list (list Q)).

(** The blocking measurement calls of the driver.  They are dynamically
    typed, so they take Python values; what they return or raise is the
    instrument's business. *)
Record Driver : Type := mkDriver {
  voltageSweepSingleSMU :
    Keithley -> Smu -> list Q -> pyval -> pyval -> pyval ->
    result (list Q * list Q);
  transferMeasurement :
    Keithley -> pyval -> pyval -> pyval -> pyval -> pyval -> pyval ->
    pyval -> pyval -> pyval -> result SweepData;
  outputMeasurement :
    Keithley -> pyval -> pyval -> pyval -> pyval -> pyval -> pyval ->
    pyval -> pyval -> pyval -> result SweepData;
  reset : Keithley -> result unit }.

(** What reading [keithley.localnode.model] does: it answers, or raises
    one of the three exceptions the poller catches. *)
Inductive io_error : Type := VisaIOError | InvalidSession | OSError.
Inductive model_query : Type :=
| ModelIs (model : string)
| QueryRaises (e : io_error).

(** ** Widgets of the main window *)

(** The widgets the three interface states set. *)
Record Gui : Type := mkGui {
  pushButtonRun : bool;          (* enabled *)
  pushButtonAbort : bool;        (* enabled *)
  actionConnect : bool;          (* enabled *)
  actionDisconnect : bool;       (* enabled *)
  statusBar : string;            (* message shown *)
  led : bool;                    (* checked *)
  actionSaveSweepData : bool }.  (* enabled *)

Record ComboBox : Type := mkComboBox {
  items : list string;
  currentIndex : Z }.

Definition currentText (c : ComboBox) : string :=
  if (0 <=? currentIndex c)%Z
  then nth (Z.to_nat (currentIndex c)) (items c) ""
  else "".

(** One settings tab per SMU: [comboBoxes[i]], [scienDSpinBoxsLimI[i]],
    [scienDSpinBoxsLimV[i]]. *)
Record SmuTab : Type := mkSmuTab {
  comboBox : Z;
  scienDSpinBoxLimI : Q;
  scienDSpinBoxLimV : Q }.

(** The measurement tabs with the contents of their input widgets. *)
Inductive MeasurementTab : Type :=
| TransferTab (scienDSpinBoxVgStart scienDSpinBoxVgStop scienDSpinBoxVgStep : Q)
              (lineEditVdList : string)
| OutputTab (scienDSpinBoxVdStart scienDSpinBoxVdStop scienDSpinBoxVdStep : Q)
            (lineEditVgList : string)
| IVTab (scienDSpinBoxVStart scienDSpinBoxVStop scienDSpinBoxVStep : Q)
        (comboBoxSweepSMU : string).

(** The texts of the information dialogs of [_on_sweep_clicked]. *)
Inductive dialog : Type :=
| InfoBusy                        (* 'Keithley is currently used by antoher program. ...' *)
| InfoIntegrationTime (freq : Q). (* 'Integration time must be between 0.001 and 25 ...' *)

(** ** main.py: MeasureThread *)

Module MeasureThread.

Record t : Type := mk {
  keithley : Keithley;
  params : gmap string pyval;
  mfunction : Keithley -> gmap string pyval -> result SweepData }.

Inductive event : Type :=
| startedSig
| call_mfunction (k : Keithley) (p : gmap string pyval)
| finishedSig (sweepData : SweepData).

(** What the thread has done so far, and how the step ended. *)
Definition T (A : Type) : Type := (list event * result A)%type.

Definition emit (e : event) : T unit := ([e], Return tt).

Definition call (th : t) : T SweepData :=
  ([call_mfunction (keithley th) (params th)],
   mfunction th (keithley th) (params th)).

Definition bind {A B} (m : T A) (f : A -> T B) : T B :=
  match m with
  | (tr, Return a) => let '(tr', r) := f a in ((tr ++ tr')%list, r)
  | (tr, Raise e) => (tr, Raise e)
  end.

(** [run], lines 615-618. *)
Definition run (self : t) : T unit :=
  bind (emit startedSig) (fun _ =>
  bind (call self) (fun sweepData =>
  emit (finishedSig sweepData))).

End MeasureThread.

(** ** The application state *)

Record App : Type := mkApp {
  keithley : Keithley;
  gui : Gui;
  smu_tabs : list (string * SmuTab);       (* [smu_list[i]] with its tab *)
  tabWidgetSweeps : list MeasurementTab;
  tabWidgetSweeps_currentIndex : Z;
  scienDSpinBoxInt : Q;
  scienDSpinBoxSettling : Q;
  comboBoxGateSMU : ComboBox;
  comboBoxDrainSMU : ComboBox;
  comboBoxSweepType : Z;
  dialogs : list dialog;                   (* dialogs shown, latest first *)
  measureThread : option MeasureThread.t;
  started : list MeasureThread.t;          (* threads started, latest first *)
  sweep_data : option SweepData }.

Definition smu_list (a : App) : list string := map fst (smu_tabs a).

Definition with_keithley (a : App) (k : Keithley) : App :=
  mkApp k (gui a) (smu_tabs a) (tabWidgetSweeps a)
        (tabWidgetSweeps_currentIndex a) (scienDSpinBoxInt a)
        (scienDSpinBoxSettling a) (comboBoxGateSMU a) (comboBoxDrainSMU a)
        (comboBoxSweepType a) (dialogs a) (measureThread a) (started a)
        (sweep_data a).

Definition with_gui (a : App) (g : Gui) : App :=
  mkApp (keithley a) g (smu_tabs a) (tabWidgetSweeps a)
        (tabWidgetSweeps_currentIndex a) (scienDSpinBoxInt a)
        (scienDSpinBoxSettling a) (comboBoxGateSMU a) (comboBoxDrainSMU a)
        (comboBoxSweepType a) (dialogs a) (measureThread a) (started a)
        (sweep_data a).

Definition with_comboBoxGateSMU (a : App) (c : ComboBox) : App :=
  mkApp (keithley a) (gui a) (smu_tabs a) (tabWidgetSweeps a)
        (tabWidgetSweeps_currentIndex a) (scienDSpinBoxInt a)
        (scienDSpinBoxSettling a) c (comboBoxDrainSMU a)
        (comboBoxSweepType a) (dialogs a) (measureThread a) (started a)
        (sweep_data a).

Definition with_comboBoxDrainSMU (a : App) (c : ComboBox) : App :=
  mkApp (keithley a) (gui a) (smu_tabs a) (tabWidgetSweeps a)
        (tabWidgetSweeps_currentIndex a) (scienDSpinBoxInt a)
        (scienDSpinBoxSettling a) (comboBoxGateSMU a) c
        (comboBoxSweepType a) (dialogs a) (measureThread a) (started a)
        (sweep_data a).

Definition with_dialogs (a : App) (d : list dialog) : App :=
  mkApp (keithley a) (gui a) (smu_tabs a) (tabWidgetSweeps a)
        (tabWidgetSweeps_currentIndex a) (scienDSpinBoxInt a)
        (scienDSpinBoxSettling a) (comboBoxGateSMU a) (comboBoxDrainSMU a)
        (comboBoxSweepType a) d (measureThread a) (started a)
        (sweep_data a).

Definition with_measureThread (a : App) (th : option MeasureThread.t) : App :=
  mkApp (keithley a) (gui a) (smu_tabs a) (tabWidgetSweeps a)
        (tabWidgetSweeps_currentIndex a) (scienDSpinBoxInt a)
        (scienDSpinBoxSettling a) (comboBoxGateSMU a) (comboBoxDrainSMU a)
        (comboBoxSweepType a) (dialogs a) th (started a)
        (sweep_data a).

Definition with_started (a : App) (l : list MeasureThread.t) : App :=
  mkApp (keithley a) (gui a) (smu_tabs a) (tabWidgetSweeps a)
        (tabWidgetSweeps_currentIndex a) (scienDSpinBoxInt a)
        (scienDSpinBoxSettling a) (comboBoxGateSMU a) (comboBoxDrainSMU a)
        (comboBoxSweepType a) (dialogs a) (measureThread a) l
        (sweep_data a).

Definition with_sweep_data (a : App) (sd : option SweepData) : App :=
  mkApp (keithley a) (gui a) (smu_tabs a) (tabWidgetSweeps a)
        (tabWidgetSweeps_currentIndex a) (scienDSpinBoxInt a)
        (scienDSpinBoxSettling a) (comboBoxGateSMU a) (comboBoxDrainSMU a)
        (comboBoxSweepType a) (dialogs a) (measureThread a) (started a)
        sd.

(** ** Callbacks: state and exceptions *)

(** A callback runs on the application state and returns or raises; the
    state it has reached is kept either way. *)
Definition M (A : Type) : Type := App -> App * result A.

#[global] Instance M_ret : MRet M := fun A (x : A) (a : App) => (a, Return x).

#[global] Instance M_bind : MBind M :=
  fun A B (f : A -> M B) (m : M A) (a : App) =>
    match m a with
    | (a', Return x) => f x a'
    | (a', Raise e) => (a', Raise e)
    end.

Definition gets {A} (f : App -> A) : M A := fun a => (a, Return (f a)).
Definition modify (f : App -> App) : M unit := fun a => (f a, Return tt).
Definition lift {A} (r : result A) : M A := fun a => (a, r).

(** [self.statusBar.showMessage(msg)]. *)
Definition showMessage (msg : string) : M unit :=
  modify (fun a =>
    with_gui a (mkGui (pushButtonRun (gui a)) (pushButtonAbort (gui a))
                      (actionConnect (gui a)) (actionDisconnect (gui a))
                      msg (led (gui a)) (actionSaveSweepData (gui a)))).

(** [QtWidgets.QMessageBox.information(self, 'error', msg)]. *)
Definition information (msg : dialog) : M unit :=
  modify (fun a => with_dialogs a (msg :: dialogs a)).


(** Sequencing of steps that return or raise, without state. *)
#[global] Instance result_ret : MRet result := fun A (x : A) => Return x.

#[global] Instance result_bind : MBind result :=
  fun A B (f : A -> result B) (r : result A) =>
    match r with
    | Return x => f x
    | Raise e => Raise e
    end.

(** ** measurements/transfer.py *)

Module Transfer.
Section Transfer.

Variable float : string -> option Q.   (* Python's [float]; [None]: ValueError *)
Variable driver : Driver.

(** [_string_to_Vd], lines 60-67. *)
Definition _string_to_Vd (s : string) : result atom :=
  match float s with
  | Some v => Return (AFloat v)
  | None =>
      if str_in "trailing" s then Return (AStr "trailing")
      else Raise (ValueError "Invalid drain voltage.")
  end.

(** [_on_sweep_clicked], lines 24-37. *)
Definition _on_sweep_clicked
    (scienDSpinBoxVgStart scienDSpinBoxVgStop scienDSpinBoxVgStep : Q)
    (lineEditVdList : string) : M (option (gmap string pyval)) :=
  showMessage "    Recording transfer curve." ;;
  let params : gmap string pyval := {[ "Measurement" := VStr "transfer" ]} in
  let params := <["VgStart" := VFloat scienDSpinBoxVgStart]> params in
  let params := <["VgStop" := VFloat scienDSpinBoxVgStop]> params in
  let params := <["VgStep" := VFloat scienDSpinBoxVgStep]> params in
  let VdStringList := split_comma lineEditVdList in
  VdList ← lift (list_comprehension _string_to_Vd VdStringList);
  let params := <["VdList" := VList VdList]> params in
  mret (Some params).

(** [mfunction], lines 39-47. *)
Definition mfunction (keithley : Keithley) (params : gmap string pyval)
  : result SweepData :=
  smu_gate ← getitem params "smu_gate";
  smu_drain ← getitem params "smu_drain";
  VgStart ← getitem params "VgStart";
  VgStop ← getitem params "VgStop";
  VgStep ← getitem params "VgStep";
  VdList ← getitem params "VdList";
  tInt ← getitem params "tInt";
  delay ← getitem params "delay";
  pulsed ← getitem params "pulsed";
  transferMeasurement driver keithley smu_gate smu_drain VgStart VgStop
                      VgStep VdList tInt delay pulsed.

End Transfer.
End Transfer.

(** ** measurements/output.py *)

Module Output.
Section Output.

Variable float : string -> option Q.
Variable driver : Driver.

Definition float_atom (s : string) : result atom :=
  match float s with
  | Some v => Return (AFloat v)
  | None => Raise (ValueError "could not convert string to float")
  end.

(** [_on_sweep_clicked], lines 23-35: the function ends after filling
    [params], without a return statement, so the caller receives [None]. *)
Definition _on_sweep_clicked
    (scienDSpinBoxVdStart scienDSpinBoxVdStop scienDSpinBoxVdStep : Q)
    (lineEditVgList : string) : M (option (gmap string pyval)) :=
  showMessage "    Recording output curve." ;;
  let params : gmap string pyval := {[ "Measurement" := VStr "output" ]} in
  let params := <["VdStart" := VFloat scienDSpinBoxVdStart]> params in
  let params := <["VdStop" := VFloat scienDSpinBoxVdStop]> params in
  let params := <["VdStep" := VFloat scienDSpinBoxVdStep]> params in
  let VgStringList := split_comma lineEditVgList in
  VgList ← lift (list_comprehension float_atom VgStringList);
  let params := <["VgList" := VList VgList]> params in
  mret None.

(** [mfunction], lines 37-45. *)
Definition mfunction (keithley : Keithley) (params : gmap string pyval)
  : result SweepData :=
  smu_gate ← getitem params "smu_gate";
  smu_drain ← getitem params "smu_drain";
  VdStart ← getitem params "VdStart";
  VdStop ← getitem params "VdStop";
  VdStep ← getitem params "VdStep";
  VgList ← getitem params "VgList";
  tInt ← getitem params "tInt";
  delay ← getitem params "delay";
  pulsed ← getitem params "pulsed";
  outputMeasurement driver keithley smu_gate smu_drain VdStart VdStop
                    VdStep VgList tInt delay pulsed.

End Output.
End Output.

(** ** measurements/iv.py *)

Module IV.

(** [mfunction], lines 42-43: the sweep-parameter builder. *)
Definition step (VStart VStop VStep : Q) : Q :=
  np_sign (VStop - VStart) * Qabs VStep.

Definition sweeplist (VStart VStop VStep : Q) : result (list Q) :=
  let step := step VStart VStop VStep in
  np_arange VStart (VStop + step) step.

(** [_on_sweep_clicked], lines 25-38. *)
Definition _on_sweep_clicked
    (scienDSpinBoxVStart scienDSpinBoxVStop scienDSpinBoxVStep : Q)
    (comboBoxSweepSMU : string) : M (option (gmap string pyval)) :=
  showMessage "    Recording IV curve." ;;
  let params : gmap string pyval := {[ "Measurement" := VStr "iv" ]} in
  let params := <["VStart" := VFloat scienDSpinBoxVStart]> params in
  let params := <["VStop" := VFloat scienDSpinBoxVStop]> params in
  let params := <["VStep" := VFloat scienDSpinBoxVStep]> params in
  let params := <["smu_sweep" := VStr comboBoxSweepSMU]> params in
  mret (Some params).

Section IV.

Variable driver : Driver.

(** [mfunction], lines 40-52. *)
Definition mfunction (keithley : Keithley) (params : gmap string pyval)
  : result SweepData :=
  VStop ← get_float params "VStop";
  VStart ← get_float params "VStart";
  VStep ← get_float params "VStep";
  sweeplist ← sweeplist VStart VStop VStep;
  smu_sweep ← getitem params "smu_sweep";
  smu ← match smu_sweep with
        | VStr name => getattr keithley name
        | _ => Raise (TypeError "getattr(): attribute name must be string")
        end;
  tInt ← getitem params "tInt";
  delay ← getitem params "delay";
  pulsed ← getitem params "pulsed";
  '(vSweep, iSweep) ← voltageSweepSingleSMU driver keithley smu sweeplist
                                             tInt delay pulsed;
  reset driver keithley ;;
  mret (IVSweepData vSweep iSweep).

End IV.
End IV.


(** ** main.py: KeithleyGuiApp *)

Inductive smu_combo : Type := Gate | Drain.

Module KeithleyGuiApp.

(** *** Interface states, lines 533-567 *)

Definition _gui_state_busy (g : Gui) : Gui :=
  mkGui false true false false "    Measuring." true (actionSaveSweepData g).

Definition _gui_state_idle (g : Gui) : Gui :=
  mkGui true false false true "    Ready." true (actionSaveSweepData g).

Definition _gui_state_disconnected (g : Gui) : Gui :=
  mkGui false false true false "    No Keithley connected." false
        (actionSaveSweepData g).

(** [_update_gui_connection], lines 517-531; [q] is what reading
    [keithley.localnode.model] does at this poll. *)
Definition _update_gui_connection (q : model_query) (self : App) : App :=
  if connected (keithley self) && negb (busy (keithley self)) then
    match q with
    | ModelIs _ => with_gui self (_gui_state_idle (gui self))
    | QueryRaises _ =>
        let self := with_keithley self (disconnect (keithley self)) in
        with_gui self (_gui_state_disconnected (gui self))
    end
  else if connected (keithley self) && busy (keithley self) then
    with_gui self (_gui_state_busy (gui self))
  else if negb (connected (keithley self)) then
    with_gui self (_gui_state_disconnected (gui self))
  else self.

(** *** SMU selection, lines 347-363 *)

Definition combo (c : smu_combo) (self : App) : ComboBox :=
  match c with
  | Gate => comboBoxGateSMU self
  | Drain => comboBoxDrainSMU self
  end.

Definition with_combo (c : smu_combo) (self : App) (cb : ComboBox) : App :=
  match c with
  | Gate => with_comboBoxGateSMU self cb
  | Drain => with_comboBoxDrainSMU self cb
  end.

(** The handlers call [setCurrentIndex] on the other combo box, which may
    call a handler again; [setCurrentIndex] is passed in. *)
Definition _on_smu_gate_changed
    (setCurrentIndex : smu_combo -> Z -> App -> option App)
    (int_smu : Z) (self : App) : option App :=
  if (int_smu =? 0)%Z && (length (smu_list self) <? 3)%nat then
    setCurrentIndex Drain 1%Z self
  else if (int_smu =? 1)%Z && (length (smu_list self) <? 3)%nat then
    setCurrentIndex Drain 0%Z self
  else Some self.

Definition _on_smu_drain_changed
    (setCurrentIndex : smu_combo -> Z -> App -> option App)
    (int_smu : Z) (self : App) : option App :=
  if (int_smu =? 0)%Z && (length (smu_list self) <? 3)%nat then
    setCurrentIndex Gate 1%Z self
  else if (int_smu =? 1)%Z && (length (smu_list self) <? 3)%nat then
    setCurrentIndex Gate 0%Z self
  else Some self.

(** [QComboBox.setCurrentIndex], also what a selection by the user does:
    an index outside the items means no selection (-1); when the index
    does not change nothing happens; otherwise [currentIndexChanged] is
    emitted and the connected handler runs before the call returns.
    [fuel] bounds the nesting of handlers; [None]: out of fuel. *)
Fixpoint setCurrentIndex (fuel : nat) (c : smu_combo) (index : Z) (self : App)
  : option App :=
  match fuel with
  | O => None
  | S fuel =>
      let cb := combo c self in
      let index :=
        if (0 <=? index)%Z && (index <? Z.of_nat (length (items cb)))%Z
        then index else (-1)%Z in
      if (index =? currentIndex cb)%Z then Some self
      else
        let self := with_combo c self (mkComboBox (items cb) index) in
        match c with
        | Gate => _on_smu_gate_changed (setCurrentIndex fuel) index self
        | Drain => _on_smu_drain_changed (setCurrentIndex fuel) index self
        end
  end.

Section KeithleyGuiApp.

Variable float : string -> option Q.   (* Python's [float]; [None]: ValueError *)
Variable driver : Driver.

(** [_string_to_vd], lines 78-86. *)
Definition _string_to_vd (s : string) : result atom :=
  match float s with
  | Some v => Return (AFloat v)
  | None =>
      if str_in "trailing" s then Return (AStr "trailing")
      else Raise (ValueError "Invalid drain voltage.")
  end.

(** *** Measurement callbacks *)

(** One round of the loop of [apply_smu_settings], lines 264-277. *)
Definition apply_smu_tab (smu_name : string) (tab : SmuTab) : M unit :=
  k ← gets keithley;
  smu ← lift (getattr k smu_name);
  let smu :=
    if (comboBox tab =? 0)%Z then
      mkSmu SENSE_LOCAL (source_limiti smu) (trigger_source_limiti smu)
            (source_limitv smu) (trigger_source_limitv smu)
    else if (comboBox tab =? 1)%Z then
      mkSmu SENSE_REMOTE (source_limiti smu) (trigger_source_limiti smu)
            (source_limitv smu) (trigger_source_limitv smu)
    else smu in
  let lim_i := scienDSpinBoxLimI tab in
  let lim_v := scienDSpinBoxLimV tab in
  let smu := mkSmu (sense smu) lim_i lim_i lim_v lim_v in
  modify (fun a =>
    with_keithley a (with_smus (keithley a) (<[smu_name := smu]> (smus (keithley a))))).

Fixpoint apply_smu_tabs (tabs : list (string * SmuTab)) : M unit :=
  match tabs with
  | [] => mret tt
  | (smu_name, tab) :: rest =>
      apply_smu_tab smu_name tab ;; apply_smu_tabs rest
  end.

(** [apply_smu_settings], lines 257-277. *)
Definition apply_smu_settings : M unit :=
  tabs ← gets smu_tabs;
  apply_smu_tabs tabs.

(** [tabWidget._on_sweep_clicked()] and [tabWidget.mfunction] for the
    widget of the selected tab. *)
Definition tab_on_sweep_clicked (tabWidget : MeasurementTab)
  : M (option (gmap string pyval)) :=
  match tabWidget with
  | TransferTab VgStart VgStop VgStep VdList =>
      Transfer._on_sweep_clicked float VgStart VgStop VgStep VdList
  | OutputTab VdStart VdStop VdStep VgList =>
      Output._on_sweep_clicked float VdStart VdStop VdStep VgList
  | IVTab VStart VStop VStep smu_sweep =>
      IV._on_sweep_clicked VStart VStop VStep smu_sweep
  end.

Definition tab_mfunction (tabWidget : MeasurementTab)
  : Keithley -> gmap string pyval -> result SweepData :=
  match tabWidget with
  | TransferTab _ _ _ _ => Transfer.mfunction driver
  | OutputTab _ _ _ _ => Output.mfunction driver
  | IVTab _ _ _ _ => IV.mfunction driver
  end.

(** [self.tabWidgetSweeps.widget(tab)]; calling a method on the [None]
    it gives for a missing tab raises. *)
Definition widget (tabs : list MeasurementTab) (tab : Z)
  : result MeasurementTab :=
  if (tab <? 0)%Z then Raise (AttributeError "_on_sweep_clicked")
  else match nth_error tabs (Z.to_nat tab) with
       | Some w => Return w
       | None => Raise (AttributeError "_on_sweep_clicked")
       end.

Definition getattr_smu (name : string) : M pyval :=
  k ← gets keithley;
  lift (getattr k name) ;;
  mret (VSmu name).

(** [_on_sweep_clicked], lines 279-324. *)
Definition _on_sweep_clicked : M unit :=
  k ← gets keithley;
  if busy k then
    information InfoBusy ;;
    mret tt
  else
    apply_smu_settings ;;
    (* receive the measurement-specific parameters *)
    tab ← gets tabWidgetSweeps_currentIndex;
    tabs ← gets tabWidgetSweeps;
    tabWidget ← lift (widget tabs tab);
    params ← tab_on_sweep_clicked tabWidget;
    (* get acquisition settings *)
    tInt ← gets scienDSpinBoxInt;
    params ← lift (setitem params "tInt" (VFloat tInt));
    delay ← gets scienDSpinBoxSettling;
    params ← lift (setitem (Some params) "delay" (VFloat delay));
    smugate ← gets (fun a => currentText (comboBoxGateSMU a));
    smu_gate ← getattr_smu smugate;
    params ← lift (setitem (Some params) "smu_gate" smu_gate);
    smudrain ← gets (fun a => currentText (comboBoxDrainSMU a));
    smu_drain ← getattr_smu smudrain;
    params ← lift (setitem (Some params) "smu_drain" smu_drain);
    idx ← gets comboBoxSweepType;
    params ← lift (setitem (Some params) "pulsed" (VBool (negb (idx =? 0)%Z)));
    (* check if integration time is valid, return otherwise *)
    freq ← gets (fun a => linefreq (keithley a));
    tInt ← lift (get_float params "tInt");
    hi ← lift (py_div 25 freq);
    too_long ← mret (negb (Qle_bool tInt hi));
    out_of_range ←
      (if too_long : bool then mret true
       else lo ← lift (py_div (1 # 1000) freq);
            mret (negb (Qle_bool lo tInt)));
    if out_of_range : bool then
      information (InfoIntegrationTime freq) ;;
      mret tt
    else
      (* create measurement thread with params dictionary *)
      k ← gets keithley;
      let th := MeasureThread.mk k params (tab_mfunction tabWidget) in
      modify (fun a => with_measureThread a (Some th)) ;;
      (* run measurement *)
      modify (fun a => with_gui a (_gui_state_busy (gui a))) ;;
      modify (fun a => with_started a (th :: started a)).

(** [_on_measure_done], lines 326-334, up to the assignment of
    [sweep_data]; plotting and the save dialog that follow are outside
    the model. *)
Definition _on_measure_done (sd : SweepData) : M unit :=
  showMessage "    Ready." ;;
  modify (fun a => with_gui a (_gui_state_idle (gui a))) ;;
  modify (fun a =>
    with_gui a (mkGui (pushButtonRun (gui a)) (pushButtonAbort (gui a))
                      (actionConnect (gui a)) (actionDisconnect (gui a))
                      (statusBar (gui a)) (led (gui a)) true)) ;;
  modify (fun a => with_sweep_data a (Some sd)).

(** Delivery of the thread's signals: [finishedSig] is connected to
    [_on_measure_done] (line 320), [startedSig] to nothing. *)
Definition deliver (e : MeasureThread.event) : M unit :=
  match e with
  | MeasureThread.finishedSig sd => _on_measure_done sd
  | _ => mret tt
  end.

Fixpoint deliver_all (tr : list MeasureThread.event) : M unit :=
  match tr with
  | [] => mret tt
  | e :: rest => deliver e ;; deliver_all rest
  end.

End KeithleyGuiApp.
End KeithleyGuiApp.


(** ** Interface states as the operator sees them *)

Inductive conn_state : Type := Busy | Idle | Disconnected.

(** The six widget properties an interface state fixes. *)
Definition shows (g : Gui) : bool * bool * bool * bool * string * bool :=
  (pushButtonRun g, pushButtonAbort g, actionConnect g, actionDisconnect g,
   statusBar g, led g).

Definition in_state (s : conn_state) (g : Gui) : Prop :=
  shows g =
  match s with
  | Busy => (false, true, false, false, "    Measuring.", true)
  | Idle => (true, false, false, true, "    Ready.", true)
  | Disconnected => (false, false, true, false, "    No Keithley connected.", false)
  end.

(** The state a poll must end in, from the driver's flags and the
    outcome of the model query. *)
Definition polled_state (k : Keithley) (q : model_query) : conn_state :=
  if connected k then
    if busy k then Busy
    else match q with
         | ModelIs _ => Idle
         | QueryRaises _ => Disconnected
         end
  else Disconnected.

(** ** A concrete instrument and window for the runs below *)

Definition default_smu : Smu := mkSmu SENSE_LOCAL (1 # 10) (1 # 10) 20 20.

(** A driver whose sweeps measure zero current at every set-point. *)
Definition quiet_driver : Driver :=
  mkDriver
    (fun _ _ sweeplist _ _ _ => Return (sweeplist, map (fun _ => 0) sweeplist))
    (fun _ _ _ _ _ _ _ _ _ _ => Return (TransistorSweepData "transfer" []))
    (fun _ _ _ _ _ _ _ _ _ _ => Return (TransistorSweepData "output" []))
    (fun _ => Return tt).

Definition two_smus : gmap string Smu :=
  <["smua" := default_smu]> (<["smub" := default_smu]> ∅).

(** A connected two-SMU instrument on a 50 Hz line, with the window in its
    idle state, gate on smua and drain on smub. *)
Definition example_app (is_busy : bool) (tab : MeasurementTab) (tInt : Q) : App :=
  mkApp (mkKeithley true is_busy 50 two_smus false)
        (mkGui true false false true "    Ready." true false)
        [("smua", mkSmuTab 0 (1 # 10) 20); ("smub", mkSmuTab 1 (1 # 100) 10)]
        [tab] 0
        tInt (1 # 2)
        (mkComboBox ["smua"; "smub"] 0) (mkComboBox ["smua"; "smub"] 1)
        0 [] None [] None.


(** The worker thread that a click on Run creates for the IV tab of
    [example_app]: the driver with the SMU settings applied, the tab's
    dictionary with the acquisition settings added, and the tab's
    measurement function. *)
Definition example_iv_thread (VStart VStop VStep : Q) : MeasureThread.t :=
  let self := example_app false (IVTab VStart VStop VStep "smua") (1 # 50) in
  MeasureThread.mk
    (keithley (fst (KeithleyGuiApp.apply_smu_settings self)))
    (<["pulsed" := VBool false]>
       (<["smu_drain" := VSmu "smub"]>
          (<["smu_gate" := VSmu "smua"]>
             (<["delay" := VFloat (1 # 2)]>
                (<["tInt" := VFloat (1 # 50)]>
                   (<["smu_sweep" := VStr "smua"]>
                      (<["VStep" := VFloat VStep]>
                         (<["VStop" := VFloat VStop]>
                            (<["VStart" := VFloat VStart]>
                               {[ "Measurement" := VStr "iv" ]})))))))))
    (IV.mfunction quiet_driver).

(** ** SMU combo boxes as [_on_load_default] fills them *)

(** [cmb_list], lines 462 and 477-478: the SMU names, padded with '--' to
    two entries. *)
Definition cmb_list (smu_list : list string) : list string :=
  (smu_list ++ repeat "--" (2 - length smu_list))%list.

Definition other (c : smu_combo) : smu_combo :=
  match c with Gate => Drain | Drain => Gate end.

(** ** main.py: plugin discovery *)

Module Plugins.

Definition newline : ascii := "010"%char.

Definition is_letter (lower upper c : ascii) : bool :=
  Ascii.eqb c lower || Ascii.eqb c upper.

(** [re.compile('.py$', re.IGNORECASE).search(s)] finds a match: somewhere
    in [s] a character other than a newline is followed by 'p' and 'y' in
    either case, and then [s] ends, or ends after one newline. *)
Fixpoint pysearch (s : string) : bool :=
  match s with
  | String c ((String p (String y rest)) as t) =>
      (negb (Ascii.eqb c newline) && is_letter "p" "P" p && is_letter "y" "Y" y
       && (String.eqb rest "" || String.eqb rest (String newline "")))
      || pysearch t
  | String _ t => pysearch t
  | EmptyString => false
  end.

(** [s.rfind(c)]: the last position of [c] in [s], or -1. *)
Fixpoint rfind_from (c : ascii) (s : string) (pos : Z) (found : Z) : Z :=
  match s with
  | EmptyString => found
  | String d rest =>
      rfind_from c rest (pos + 1) (if Ascii.eqb d c then pos else found)
  end.

Definition rfind (c : ascii) (s : string) : Z := rfind_from c s 0 (-1).

(** Is there a character other than [c] in [s]? *)
Fixpoint has_other (c : ascii) (s : string) : bool :=
  match s with
  | EmptyString => false
  | String d rest => negb (Ascii.eqb d c) || has_other c rest
  end.

(** [osp.splitext(p)[0]] (posixpath): [p] up to its last dot, when that
    dot comes after the last '/' and after a character of the file name
    that is not a dot; [p] otherwise. *)
Definition splitext_root (p : string) : string :=
  let sepIndex := rfind "/" p in
  let dotIndex := rfind "." p in
  if (sepIndex <? dotIndex)%Z
     && has_other "." (String.substring (Z.to_nat (sepIndex + 1))
                                        (Z.to_nat (dotIndex - (sepIndex + 1))) p)
  then String.substring 0 (Z.to_nat dotIndex) p
  else p.

(** [form_module], line 96. *)
Definition form_module (fp : string) : string := "." +:+ splitext_root fp.

(** [importMeasurements], lines 91-105, on the listing [os.listdir] gives:
    the names handed to [importlib.import_module], in order. *)
Definition importMeasurements (listdir : list string) : list string :=
  let pluginfiles := List.filter pysearch listdir in
  let plugins := map form_module pluginfiles in
  List.filter (fun plugin => negb (String.prefix "__" plugin)) plugins.

End Plugins.

(** ** main.py: connection menu and defaults of the SMU combo boxes *)

Module Menus.

(** [_on_disconnect_clicked], lines 375-379; [q] is what reading the model
    would do if the poll got that far. *)
Definition _on_disconnect_clicked (q : model_query) (self : App) : App :=
  let self := with_keithley self (disconnect (keithley self)) in
  let self := KeithleyGuiApp._update_gui_connection q self in
  fst (showMessage "    No Keithley connected." self).

(** [QComboBox.clear]: the items go, the selection becomes -1, and
    [currentIndexChanged(-1)] is emitted when there was a selection. *)
Definition clear (fuel : nat) (c : smu_combo) (self : App) : option App :=
  let cb := KeithleyGuiApp.combo c self in
  let self := KeithleyGuiApp.with_combo c self (mkComboBox [] (-1)) in
  if (currentIndex cb =? -1)%Z then Some self
  else match c with
       | Gate => KeithleyGuiApp._on_smu_gate_changed
                   (KeithleyGuiApp.setCurrentIndex fuel) (-1) self
       | Drain => KeithleyGuiApp._on_smu_drain_changed
                    (KeithleyGuiApp.setCurrentIndex fuel) (-1) self
       end.

(** [QComboBox.addItems]: the texts are appended; when the combo box was
    empty its first item becomes the current one ([setCurrentIndex(0)]). *)
Definition addItems (fuel : nat) (c : smu_combo) (texts : list string)
    (self : App) : option App :=
  let cb := KeithleyGuiApp.combo c self in
  let self :=
    KeithleyGuiApp.with_combo c self
      (mkComboBox (items cb ++ texts)%list (currentIndex cb)) in
  match items cb, texts with
  | [], _ :: _ => KeithleyGuiApp.setCurrentIndex fuel c 0 self
  | _, _ => Some self
  end.

(** [l.index(x)]: the first position of [x]; [None]: ValueError. *)
Fixpoint py_index (x : string) (l : list string) : option Z :=
  match l with
  | [] => None
  | y :: rest =>
      if String.eqb y x then Some 0%Z
      else option_map Z.succ (py_index x rest)
  end.

(** The part of [_on_load_default] that fills and sets the two SMU combo
    boxes, lines 462 and 476-494.  [conf_gate] and [conf_drain] are
    [CONF.get('Sweep', 'gate')] and [CONF.get('Sweep', 'drain')]; the
    second component tells whether the dialog 'Could not find last used
    SMUs in Keithley driver.' was shown.  [None]: out of fuel. *)
Definition _on_load_default_smu_combos (fuel : nat)
    (conf_gate conf_drain : string) (self : App) : option (App * bool) :=
  let cmb_list := cmb_list (smu_list self) in
  self ← clear fuel Gate self;
  self ← clear fuel Drain self;
  self ← addItems fuel Gate cmb_list self;
  self ← addItems fuel Drain cmb_list self;
  match py_index conf_gate cmb_list, py_index conf_drain cmb_list with
  | Some idx_gate, Some idx_drain =>
      self ← KeithleyGuiApp.setCurrentIndex fuel Gate idx_gate self;
      self ← KeithleyGuiApp.setCurrentIndex fuel Drain idx_drain self;
      Some (self, false)
  | _, _ =>
      self ← KeithleyGuiApp.setCurrentIndex fuel Gate 0 self;
      self ← KeithleyGuiApp.setCurrentIndex fuel Drain 1 self;
      Some (self, true)
  end.

End Menus.

(** ** Notions used in the statements about the handlers *)

(** The index a combo box takes when asked for [i]: [i] when an item has
    that index, -1 otherwise. *)
Definition combo_norm (cb : ComboBox) (i : Z) : Z :=
  if (0 <=? i)%Z && (i <? Z.of_nat (length (items cb)))%Z then i else (-1)%Z.

(** The handler connected to [currentIndexChanged] of a combo box. *)
Definition combo_handler (c : smu_combo)
    (set : smu_combo -> Z -> App -> option App) (i : Z) (a : App)
  : option App :=
  match c with
  | Gate => KeithleyGuiApp._on_smu_gate_changed set i a
  | Drain => KeithleyGuiApp._on_smu_drain_changed set i a
  end.

(** The window with the two SMU combo boxes replaced. *)
Definition with_smu_combos (self : App) (G D : ComboBox) : App :=
  with_comboBoxDrainSMU (with_comboBoxGateSMU self G) D.

(** The SMU object after the values of its settings tab are written. *)
Definition smu_written (tab : SmuTab) (old : Smu) : Smu :=
  mkSmu (if (comboBox tab =? 0)%Z then SENSE_LOCAL
         else if (comboBox tab =? 1)%Z then SENSE_REMOTE else sense old)
        (scienDSpinBoxLimI tab) (scienDSpinBoxLimI tab)
        (scienDSpinBoxLimV tab) (scienDSpinBoxLimV tab).

(** The state in which [_on_sweep_clicked] reaches the check of tInt: the
    SMU settings applied and the status message of the tab shown. *)
Definition at_check (float : string -> option Q) (self : App)
    (tabWidget : MeasurementTab) : App :=
  fst (KeithleyGuiApp.tab_on_sweep_clicked float tabWidget
         (fst (KeithleyGuiApp.apply_smu_settings self))).

(** The tab's dictionary with the five acquisition settings added. *)
Definition acquisition (self : App) (p0 : gmap string pyval)
  : gmap string pyval :=
  <["pulsed" := VBool (negb (comboBoxSweepType self =? 0)%Z)]>
    (<["smu_drain" := VSmu (currentText (comboBoxDrainSMU self))]>
       (<["smu_gate" := VSmu (currentText (comboBoxGateSMU self))]>
          (<["delay" := VFloat (scienDSpinBoxSettling self)]>
             (<["tInt" := VFloat (scienDSpinBoxInt self)]> p0)))).

(** The status message a tab shows when Run is clicked. *)
Definition recording_message (tabWidget : MeasurementTab) : string :=
  match tabWidget with
  | TransferTab _ _ _ _ => "    Recording transfer curve."
  | OutputTab _ _ _ _ => "    Recording output curve."
  | IVTab _ _ _ _ => "    Recording IV curve."
  end.

(** Is tInt outside 0.001/freq .. 25/freq, as the handler tests it? *)
Definition tInt_out_of_range (self : App) : bool :=
  negb (Qle_bool (scienDSpinBoxInt self) (25 / linefreq (keithley self)))
  || negb (Qle_bool ((1 # 1000) / linefreq (keithley self))
                    (scienDSpinBoxInt self)).

(** A field of the drain-voltage list that [_string_to_Vd] accepts. *)
Definition vd_field_ok (float : string -> option Q) (s : string) : bool :=
  match float s with
  | Some _ => true
  | None => str_in "trailing" s
  end.

(** The first of [keys] that the dictionary [p] lacks. *)
Definition first_missing (p : gmap string pyval) (keys : list string)
  : option string :=
  List.find (fun key => match p !! key with
                        | None => true
                        | Some _ => false
                        end) keys.

(** * Properties *)

(** ** Sweep arithmetic *)

Section SweepFacts.



Lemma np_sign_zero x : x == 0 -> np_sign x = 0.
Proof. intros H. unfold np_sign. now rewrite (proj1 (Qeq_alt x 0) H). Qed.


Lemma Qeq_bool_false q : ~ q == 0 -> Qeq_bool q 0 = false.
Proof.
  intros H. destruct (Qeq_bool q 0) eqn:E; [|reflexivity].
  apply Qeq_bool_eq in E. contradiction.
Qed.

Lemma Qeq_bool_true q : q == 0 -> Qeq_bool q 0 = true.
Proof. intros H. now apply Qeq_eq_bool. Qed.


















End SweepFacts.















(** Claim C6 at its failing inputs.  With [VStop = VStart] the sign is 0,
    the step is 0, and [np.arange] raises; likewise with [VStep = 0]. *)
Theorem C6_sweeplist_raises_on_zero_step :
  IV.sweeplist 0 0 1 = Raise (ValueError "arange: cannot compute length") /\
  IV.sweeplist 0 1 0 =
    Raise (OverflowError "arange: overflow while computing length").
Proof. split; vm_compute; reflexivity. Qed.

(** The same for every request with equal end points or a zero step. *)
Lemma sweeplist_degenerate_raises VStart VStop VStep :
  VStart == VStop \/ VStep == 0 ->
  is_return (IV.sweeplist VStart VStop VStep) = false.
Proof.
  intros H.
  assert (IV.step VStart VStop VStep == 0) as Hz.
  { unfold IV.step. destruct H as [H|H].
    - rewrite np_sign_zero by lra. ring.
    - rewrite H. change (Qabs 0) with 0. ring. }
  unfold IV.sweeplist, np_arange. rewrite (Qeq_bool_true _ Hz).
  now destruct (Qeq_bool _ 0).
Qed.

(** ** Connection poller *)

Lemma states_distinct (s s' : conn_state) (g : Gui) :
  in_state s g -> in_state s' g -> s = s'.
Proof.
  unfold in_state. intros H H'. rewrite H in H'.
  destruct s, s'; try reflexivity; discriminate H'.
Qed.

(** Claim C2.  A poll ends in exactly one of the three interface states,
    fixed by the driver's flags and the outcome of the model query: busy
    when connected and busy; idle when connected, not busy and the query
    answers; disconnected when not connected, or when connected, not busy
    and the query raises, in which case the driver is disconnected too. *)
Theorem C2_poll_ends_in_one_state (q : model_query) (self : App) :
  let self' := KeithleyGuiApp._update_gui_connection q self in
  let k := keithley self in
  in_state (polled_state k q) (gui self') /\
  (forall s, in_state s (gui self') <-> s = polled_state k q) /\
  (polled_state k q = Busy <-> connected k = true /\ busy k = true) /\
  (polled_state k q = Idle <->
     connected k = true /\ busy k = false /\ exists m, q = ModelIs m) /\
  (polled_state k q = Disconnected <->
     connected k = false \/
     (connected k = true /\ busy k = false /\ exists e, q = QueryRaises e)) /\
  (connected k = true -> busy k = false -> (exists e, q = QueryRaises e) ->
     connected (keithley self') = false) /\
  ((connected k = false \/ busy k = true \/ exists m, q = ModelIs m) ->
     keithley self' = k).
Proof.
  intros self' k.
  assert (in_state (polled_state k q) (gui self')) as Hin.
  { subst self' k. unfold KeithleyGuiApp._update_gui_connection, polled_state.
    destruct (connected (keithley self)), (busy (keithley self)), q;
      reflexivity. }
  split; [exact Hin|]. split.
  { intros s. split; [intros Hs; eapply states_distinct; eauto | now intros ->]. }
  subst self' k. unfold KeithleyGuiApp._update_gui_connection, polled_state.
  destruct self as [k g ? ? ? ? ? ? ? ? ? ? ? ?]; simpl.
  destruct k as [c b f m ab]; simpl.
  destruct c, b, q; simpl; repeat split;
    try tauto; try discriminate; firstorder (eauto; discriminate).
Qed.

(** ** Drain-voltage parser *)

Lemma prefix_spec (sub s : string) :
  String.prefix sub s = true <-> exists post, s = sub +:+ post.
Proof.
  revert s. induction sub as [|c sub IH]; intros s.
  - split; [intros _; now exists s | intros _; now destruct s].
  - destruct s as [|d s]; simpl.
    + split; [discriminate | intros [post H]; discriminate H].
    + destruct (Ascii.ascii_dec c d) as [->|Hne].
      * rewrite IH. split; intros [post H]; exists post.
        -- now rewrite H.
        -- now injection H.
      * split; [discriminate|]. intros [post H]. injection H as H _.
        now contradiction Hne.
Qed.

Lemma str_in_unfold (sub s : string) :
  str_in sub s =
  if String.prefix sub s then true
  else match s with
       | EmptyString => false
       | String _ rest => str_in sub rest
       end.
Proof. now destruct s. Qed.

(** [str_in sub s] holds exactly when [sub] occurs somewhere in [s]. *)
Lemma str_in_spec (sub s : string) :
  str_in sub s = true <-> exists pre post, s = pre +:+ sub +:+ post.
Proof.
  induction s as [|d s IH]; rewrite str_in_unfold.
  - destruct (String.prefix sub "") eqn:E.
    + split; [intros _|reflexivity].
      apply prefix_spec in E as [post E]. now exists "", post.
    + split; [discriminate|]. intros [pre [post H]].
      destruct pre; simpl in H; [|discriminate H].
      assert (String.prefix sub "" = true) as E'
        by (apply prefix_spec; now exists post).
      congruence.
  - destruct (String.prefix sub (String d s)) eqn:E.
    + split; [intros _|reflexivity].
      apply prefix_spec in E as [post E]. now exists "", post.
    + rewrite IH. split.
      * intros [pre [post H]]. exists (String d pre), post. simpl. now rewrite H.
      * intros [pre [post H]]. destruct pre as [|c pre]; simpl in H.
        -- assert (String.prefix sub (String d s) = true) as E'
             by (apply prefix_spec; now exists post).
           congruence.
        -- injection H as _ H. now exists pre, post.
Qed.

(** Claim C9.  The parser returns the float when [float] accepts the
    string; otherwise the token 'trailing' when that substring occurs in
    the string; otherwise it raises ValueError('Invalid drain voltage.').
    The three cases exclude one another and leave no fourth; the copy in
    the transfer tab behaves the same. *)
Theorem C9_string_to_vd_three_outcomes (float : string -> option Q) (s : string) :
  let r := KeithleyGuiApp._string_to_vd float s in
  let valid := exists v, float s = Some v in
  let occurs := exists pre post, s = pre +:+ "trailing" +:+ post in
  Transfer._string_to_Vd float s = r /\
  (valid -> exists v, float s = Some v /\ r = Return (AFloat v)) /\
  (~ valid -> occurs -> r = Return (AStr "trailing")) /\
  (~ valid -> ~ occurs -> r = Raise (ValueError "Invalid drain voltage.")) /\
  ((exists v, r = Return (AFloat v)) \/
   r = Return (AStr "trailing") \/
   r = Raise (ValueError "Invalid drain voltage.")) /\
  ((exists v, r = Return (AFloat v)) -> valid) /\
  (r = Return (AStr "trailing") -> ~ valid /\ occurs) /\
  (r = Raise (ValueError "Invalid drain voltage.") -> ~ valid /\ ~ occurs).
Proof.
  intros r valid occurs. subst r valid occurs.
  unfold KeithleyGuiApp._string_to_vd, Transfer._string_to_Vd.
  pose proof (str_in_spec "trailing" s) as Hin.
  destruct (float s) as [v|] eqn:Hf.
  - split; [reflexivity|].
    assert (exists v0 : Q, Some v = Some v0) as Hv by now exists v.
    repeat split; try (intros; discriminate); try tauto.
    + intros _. now exists v.
    + left. now exists v.
  - assert (~ exists v : Q, (None : option Q) = Some v) as Hnone
      by (intros [v H]; discriminate H).
    split; [reflexivity|].
    destruct (str_in "trailing" s) eqn:Hs.
    + assert (exists pre post, s = pre +:+ "trailing" +:+ post) as Hocc
        by now apply Hin.
      repeat split; try (intros; discriminate); try tauto.
      intros [v H]. discriminate H.
    + assert (~ exists pre post, s = pre +:+ "trailing" +:+ post) as Hocc
        by (intros H; apply Hin in H; discriminate H).
      repeat split; try (intros; discriminate); try tauto.
      intros [v H]. discriminate H.
Qed.

(** ** SMU selection *)

Section SmuSelection.
Import KeithleyGuiApp.

Lemma cmb_list_length (l : list string) : (2 <= length (cmb_list l))%nat.
Proof. unfold cmb_list. rewrite length_app, repeat_length. lia. Qed.

Lemma valid_index (cb : ComboBox) (i : Z) :
  (2 <= length (items cb))%nat -> i = 0%Z \/ i = 1%Z ->
  ((0 <=? i)%Z && (i <? Z.of_nat (length (items cb)))%Z) = true.
Proof.
  intros Hlen Hi. apply andb_true_iff. split.
  - apply Z.leb_le. lia.
  - apply Z.ltb_lt. lia.
Qed.

Lemma combo_with_combo c self cb : combo c (with_combo c self cb) = cb.
Proof. now destruct c. Qed.

Lemma combo_with_other c self cb :
  combo (other c) (with_combo c self cb) = combo (other c) self.
Proof. now destruct c. Qed.

Lemma smu_list_with_combo c self cb :
  smu_list (with_combo c self cb) = smu_list self.
Proof. now destruct c. Qed.

(** Setting a combo box to the index it already has does nothing. *)
Lemma setCurrentIndex_same fuel c i self :
  (2 <= length (items (combo c self)))%nat -> i = 0%Z \/ i = 1%Z ->
  currentIndex (combo c self) = i ->
  setCurrentIndex (S fuel) c i self = Some self.
Proof.
  intros Hlen Hi Hcur. simpl. rewrite valid_index by assumption.
  now rewrite Hcur, Z.eqb_refl.
Qed.

(** Setting it to another index stores the index and runs the handler. *)
Lemma setCurrentIndex_changed fuel c i self :
  (2 <= length (items (combo c self)))%nat -> i = 0%Z \/ i = 1%Z ->
  currentIndex (combo c self) <> i ->
  setCurrentIndex (S fuel) c i self =
  let self' := with_combo c self (mkComboBox (items (combo c self)) i) in
  match c with
  | Gate => _on_smu_gate_changed (setCurrentIndex fuel) i self'
  | Drain => _on_smu_drain_changed (setCurrentIndex fuel) i self'
  end.
Proof.
  intros Hlen Hi Hcur. simpl. rewrite valid_index by assumption.
  destruct (Z.eqb_spec i (currentIndex (combo c self))) as [E|_];
    [now contradiction Hcur | reflexivity].
Qed.

(** With fewer than three SMUs both handlers send the opposite index to
    the other combo box. *)
Lemma handler_forces_opposite set c i self :
  (length (smu_list self) < 3)%nat -> i = 0%Z \/ i = 1%Z ->
  match c with
  | Gate => _on_smu_gate_changed set i self
  | Drain => _on_smu_drain_changed set i self
  end = set (other c) (1 - i)%Z self.
Proof.
  intros Hn Hi. apply Nat.ltb_lt in Hn.
  unfold _on_smu_gate_changed, _on_smu_drain_changed. rewrite Hn.
  destruct c, Hi as [->| ->]; reflexivity.
Qed.

End SmuSelection.

(** Claim C8.  With fewer than three SMUs, and the combo boxes filled as
    [_on_load_default] fills them, every change of the gate or drain
    selection to index 0 or 1 ends with the other combo box on the
    opposite index, so the two selected indices differ. *)
Theorem C8_smu_selections_differ (fuel : nat) (c : smu_combo) (i : Z) (self : App) :
  (length (smu_list self) < 3)%nat ->
  items (comboBoxGateSMU self) = cmb_list (smu_list self) ->
  items (comboBoxDrainSMU self) = cmb_list (smu_list self) ->
  i = 0%Z \/ i = 1%Z ->
  currentIndex (KeithleyGuiApp.combo c self) <> i ->
  exists self',
    KeithleyGuiApp.setCurrentIndex (3 + fuel) c i self = Some self' /\
    currentIndex (KeithleyGuiApp.combo c self') = i /\
    currentIndex (KeithleyGuiApp.combo (other c) self') = (1 - i)%Z /\
    currentIndex (comboBoxGateSMU self') <> currentIndex (comboBoxDrainSMU self').
Proof.
  intros Hn Hg Hd Hi Hchange.
  assert (forall c', (2 <= length (items (KeithleyGuiApp.combo c' self)))%nat)
    as Hlen.
  { intros [|]; simpl; rewrite ?Hg, ?Hd; apply cmb_list_length. }
  assert ((1 - i = 0 \/ 1 - i = 1)%Z) as Hi' by lia.
  change (3 + fuel)%nat with (S (S (S fuel))).
  rewrite setCurrentIndex_changed by auto. cbv zeta.
  set (self1 := KeithleyGuiApp.with_combo c self _).
  rewrite handler_forces_opposite
    by (subst self1; rewrite ?smu_list_with_combo; assumption).
  assert (I1 : currentIndex (KeithleyGuiApp.combo c self1) = i)
    by (subst self1; now rewrite combo_with_combo).
  assert (L1 : forall c', (2 <= length (items (KeithleyGuiApp.combo c' self1)))%nat).
  { intros c'. subst self1. destruct c, c'; simpl; auto; apply (Hlen Gate) || apply (Hlen Drain). }
  assert (differ : forall a,
            currentIndex (KeithleyGuiApp.combo c a) = i ->
            currentIndex (KeithleyGuiApp.combo (other c) a) = (1 - i)%Z ->
            currentIndex (comboBoxGateSMU a) <> currentIndex (comboBoxDrainSMU a)).
  { intros a Ha Hb. destruct c; simpl in Ha, Hb; lia. }
  destruct (Z.eq_dec (currentIndex (KeithleyGuiApp.combo (other c) self1)) (1 - i)%Z)
    as [Hsame|Hdiff].
  - (* the other combo box already shows the opposite index *)
    rewrite setCurrentIndex_same by auto.
    exists self1. auto.
  - (* it changes, and its handler sends [i] back to the first one *)
    rewrite setCurrentIndex_changed by auto. cbv zeta.
    set (self2 := KeithleyGuiApp.with_combo (other c) self1 _).
    rewrite handler_forces_opposite
      by (subst self2 self1; rewrite ?smu_list_with_combo; assumption).
    assert (I2 : currentIndex (KeithleyGuiApp.combo c self2) = i).
    { subst self2. destruct c; simpl in *; exact I1. }
    assert (O2 : currentIndex (KeithleyGuiApp.combo (other c) self2) = (1 - i)%Z)
      by (subst self2; now rewrite combo_with_combo).
    assert (L2 : (2 <= length (items (KeithleyGuiApp.combo c self2)))%nat).
    { subst self2. destruct c; simpl; apply (L1 Gate) || apply (L1 Drain). }
    replace (other (other c)) with c by now destruct c.
    replace (1 - (1 - i))%Z with i by lia.
    rewrite setCurrentIndex_same by auto.
    exists self2. auto.
Qed.

Lemma C8_smu_selections_differ_witness :
  let self := example_app false (IVTab 0 1 (1 # 2) "smua") (1 # 50) in
  currentIndex (comboBoxGateSMU self) = 0%Z /\
  exists self',
    KeithleyGuiApp.setCurrentIndex 3 Gate 1%Z self = Some self' /\
    currentIndex (KeithleyGuiApp.combo Gate self') = 1%Z /\
    currentIndex (KeithleyGuiApp.combo (other Gate) self') = (1 - 1)%Z /\
    currentIndex (comboBoxGateSMU self') <> currentIndex (comboBoxDrainSMU self').
Proof.
  intros self. split; [reflexivity|].
  apply (C8_smu_selections_differ 0 Gate 1%Z self).
  - simpl; lia.
  - reflexivity.
  - reflexivity.
  - right; reflexivity.
  - simpl; lia.
Defined.

(** ** Run button *)

Section RunButton.
Import KeithleyGuiApp.

Variable float : string -> option Q.
Variable driver : Driver.

Lemma eta_app (a : App) :
  with_keithley a (with_smus (keithley a) (smus (keithley a))) = a.
Proof. destruct a as [[] ? ? ? ? ? ? ? ? ? ? ? ? ?]. reflexivity. Qed.

(** Applying the SMU settings writes SMU objects of the driver, nothing else. *)
Lemma apply_smu_tabs_frame tabs a a' r :
  apply_smu_tabs tabs a = (a', r) ->
  exists m, a' = with_keithley a (with_smus (keithley a) m).
Proof.
  revert a. induction tabs as [|[name tab] rest IH]; intros a H; simpl in H.
  - injection H as <- _. exists (smus (keithley a)). now rewrite eta_app.
  - unfold mbind, M_bind, apply_smu_tab, gets, lift, modify in H.
    unfold mbind, M_bind in H.
    destruct (getattr (keithley a) name) as [smu|e].
    + apply IH in H as [m ->]. simpl. eexists. reflexivity.
    + injection H as <- _. exists (smus (keithley a)). now rewrite eta_app.
Qed.

Lemma apply_smu_settings_frame a a' r :
  apply_smu_settings a = (a', r) ->
  exists m, a' = with_keithley a (with_smus (keithley a) m).
Proof. unfold apply_smu_settings. apply apply_smu_tabs_frame. Qed.

(** The handler of a tab writes the status bar, nothing else. *)
Lemma tab_on_sweep_clicked_frame tabWidget a a' r :
  tab_on_sweep_clicked float tabWidget a = (a', r) ->
  exists g, a' = with_gui a g.
Proof.
  destruct tabWidget; simpl;
    unfold Transfer._on_sweep_clicked, Output._on_sweep_clicked,
           IV._on_sweep_clicked, showMessage, modify, lift, mbind, M_bind, mret, M_ret;
    try destruct (list_comprehension _ _); intros H; injection H as <- _;
    eexists; reflexivity.
Qed.

Lemma py_div_inv a b r :
  py_div a b = r ->
  (b == 0 /\ exists e, r = Raise e) \/ (~ b == 0 /\ r = Return (a / b)).
Proof.
  unfold py_div. intros <-. destruct (Qeq_bool b 0) eqn:E.
  - left. split; [now apply Qeq_bool_eq | eauto].
  - right. split; [|reflexivity]. intros H. apply Qeq_eq_bool in H. congruence.
Qed.

Lemma not_Qle_bool x y : negb (Qle_bool x y) = true <-> y < x.
Proof.
  rewrite negb_true_iff. split.
  - intros H. apply Qnot_le_lt. intros Hle. apply Qle_bool_iff in Hle. congruence.
  - intros H. destruct (Qle_bool x y) eqn:E; [|reflexivity].
    apply Qle_bool_iff in E. lra.
Qed.

Lemma not_Qle_bool_false x y : negb (Qle_bool x y) = false <-> x <= y.
Proof. rewrite negb_false_iff. apply Qle_bool_iff. Qed.

(** The handler stops at an exception raised in state [a]: no dialog, no
    thread. *)
Ltac stops_raising H := injection H as <- <-; left; simpl; eauto.

(** What a click on Run does when the instrument is not busy. *)
Lemma on_sweep_clicked_not_busy self self' r :
  _on_sweep_clicked float driver self = (self', r) ->
  busy (keithley self) = false ->
  let freq := linefreq (keithley self) in
  let tInt := scienDSpinBoxInt self in
  ((exists e, r = Raise e) /\
   dialogs self' = dialogs self /\ started self' = started self /\
   measureThread self' = measureThread self) \/
  (r = Return tt /\ ~ freq == 0 /\
   (25 / freq < tInt \/ tInt < (1 # 1000) / freq) /\
   dialogs self' = InfoIntegrationTime freq :: dialogs self /\
   started self' = started self /\
   measureThread self' = measureThread self) \/
  (r = Return tt /\ ~ freq == 0 /\
   (1 # 1000) / freq <= tInt /\ tInt <= 25 / freq /\
   dialogs self' = dialogs self /\
   exists tabWidget a1 a2 p0 th,
     widget (tabWidgetSweeps self) (tabWidgetSweeps_currentIndex self)
       = Return tabWidget /\
     tab_on_sweep_clicked float tabWidget a1 = (a2, Return (Some p0)) /\
     MeasureThread.params th =
       <["pulsed" := VBool (negb (comboBoxSweepType self =? 0)%Z)]>
         (<["smu_drain" := VSmu (currentText (comboBoxDrainSMU self))]>
            (<["smu_gate" := VSmu (currentText (comboBoxGateSMU self))]>
               (<["delay" := VFloat (scienDSpinBoxSettling self)]>
                  (<["tInt" := VFloat tInt]> p0)))) /\
     MeasureThread.mfunction th = tab_mfunction driver tabWidget /\
     MeasureThread.keithley th = keithley self' /\
     measureThread self' = Some th /\
     started self' = th :: started self /\
     in_state Busy (gui self')).
Proof.
  intros H Hb freq tInt. unfold _on_sweep_clicked in H.
  unfold mbind, M_bind, gets in H. rewrite Hb in H.
  destruct (apply_smu_settings self) as [a1 r1] eqn:E1.
  destruct (apply_smu_settings_frame _ _ _ E1) as [m ->].
  destruct r1 as [[]|e]; [|stops_raising H].
  unfold lift in H. simpl in H.
  destruct (widget _ _) as [tabWidget|e] eqn:E2;
    [|stops_raising H].
  match type of H with
  | context [tab_on_sweep_clicked float tabWidget ?a] =>
      destruct (tab_on_sweep_clicked float tabWidget a) as [a2 r2] eqn:E3
  end.
  destruct (tab_on_sweep_clicked_frame _ _ _ _ E3) as [g Hg].
  destruct r2 as [[p0|]|e]; simpl setitem in H; rewrite Hg in H;
    [| stops_raising H
     | stops_raising H].
  unfold getattr_smu, mbind, M_bind, gets, lift, mret, M_ret in H.
  simpl in H.
  match type of H with
  | context [getattr ?k ?n] => destruct (getattr k n)
  end; simpl in H; [|stops_raising H].
  match type of H with
  | context [getattr ?k ?n] => destruct (getattr k n)
  end; simpl in H; [|stops_raising H].
  unfold get_float, getitem in H.
  rewrite !lookup_insert_ne, lookup_insert_eq in H by discriminate.
  fold freq tInt in H.
  destruct (py_div_inv 25 freq _ eq_refl) as [[_ [e He]]|[Hf Hhi]].
  { rewrite He in H. stops_raising H. }
  rewrite Hhi in H.
  destruct (negb (Qle_bool tInt (25 / freq))) eqn:Ehi.
  { apply not_Qle_bool in Ehi. unfold information, modify in H.
    injection H as <- <-. right. left. simpl. auto 10. }
  apply not_Qle_bool_false in Ehi.
  destruct (py_div_inv (1 # 1000) freq _ eq_refl) as [[Hz _]|[_ Hlo]];
    [contradiction|].
  rewrite Hlo in H.
  destruct (negb (Qle_bool ((1 # 1000) / freq) tInt)) eqn:Elo.
  { apply not_Qle_bool in Elo. unfold information, modify in H.
    injection H as <- <-. right. left. simpl. auto 10. }
  apply not_Qle_bool_false in Elo.
  unfold modify in H. injection H as <- <-.
  right. right. simpl. repeat split; try assumption.
  eexists tabWidget, _, _, p0, _. repeat split; try eassumption; reflexivity.
Qed.
End RunButton.

(** What a click on Run does when the instrument is busy. *)
Lemma on_sweep_clicked_busy float driver self :
  busy (keithley self) = true ->
  KeithleyGuiApp._on_sweep_clicked float driver self =
    (with_dialogs self (InfoBusy :: dialogs self), Return tt).
Proof.
  intros Hb. unfold KeithleyGuiApp._on_sweep_clicked.
  unfold mbind, M_bind, gets. now rewrite Hb.
Qed.

(** Claim C7, as the code has it.  A click on Run creates and starts a
    worker thread only if the instrument is not busy and
    0.001/linefreq <= tInt <= 25/linefreq.  When the instrument is busy,
    the dialog is shown and the handler returns with everything else
    untouched, the SMU settings included.  When tInt is out of range and
    the handler gets as far as the check without an exception, the dialog
    is shown and no thread is created.  In both failure cases no thread
    is created or started. *)
Theorem C7_run_refused_when_busy_or_out_of_range
    (float : string -> option Q) (driver : Driver)
    (self self' : App) (r : result unit) :
  KeithleyGuiApp._on_sweep_clicked float driver self = (self', r) ->
  let freq := linefreq (keithley self) in
  let tInt := scienDSpinBoxInt self in
  (started self' <> started self \/ measureThread self' <> measureThread self ->
   busy (keithley self) = false /\ ~ freq == 0 /\
   (1 # 1000) / freq <= tInt /\ tInt <= 25 / freq) /\
  (busy (keithley self) = true ->
   r = Return tt /\ self' = with_dialogs self (InfoBusy :: dialogs self) /\
   smus (keithley self') = smus (keithley self)) /\
  (busy (keithley self) = false -> r = Return tt ->
   25 / freq < tInt \/ tInt < (1 # 1000) / freq ->
   dialogs self' = InfoIntegrationTime freq :: dialogs self /\
   started self' = started self /\
   measureThread self' = measureThread self) /\
  (busy (keithley self) = true \/
   25 / freq < tInt \/ tInt < (1 # 1000) / freq ->
   started self' = started self /\ measureThread self' = measureThread self).
Proof.
  intros H freq tInt.
  destruct (busy (keithley self)) eqn:Hb.
  - rewrite on_sweep_clicked_busy in H by exact Hb. injection H as <- <-.
    simpl. repeat split; try discriminate; try tauto.
  - pose proof (on_sweep_clicked_not_busy float driver _ _ _ H Hb) as Hcases.
    fold freq tInt in Hcases.
    destruct Hcases as [[[e ->] [Hd [Hs Ht]]]
                       |[[-> [Hf [Hout [Hd [Hs Ht]]]]]
                        |[-> [Hf [Hlo [Hhi [Hd Hth]]]]]]].
    + repeat split; try discriminate; try tauto.
      all: intros [?|?]; congruence.
    + repeat split; try discriminate; try tauto.
      all: intros [?|?]; congruence.
    + destruct Hth as (tw & a1 & a2 & p0 & th & _ & _ & _ & _ & _ & Hm & Hs & _).
      repeat split; try discriminate; try assumption;
        try (intros; exfalso; lra);
        try (intros [?|?]; (discriminate || (exfalso; lra))).
Qed.

Lemma C7_run_refused_when_busy_or_out_of_range_witness :
  let self := example_app false (TransferTab 0 10 1 "0, trailing") 100 in
  let out := KeithleyGuiApp._on_sweep_clicked decimal_literal quiet_driver self in
  dialogs (fst out) = [InfoIntegrationTime 50] /\
  started (fst out) = [] /\
  measureThread (fst out) = None.
Proof.
  intros self out.
  destruct (C7_run_refused_when_busy_or_out_of_range
              decimal_literal quiet_driver self (fst out) (snd out)
              (surjective_pairing out)) as (_ & _ & H & _).
  apply H.
  - reflexivity.
  - vm_compute; reflexivity.
  - left. vm_compute; reflexivity.
Defined.

(** Claim C7, as stated, fails: with the transfer tab holding the drain
    list 'abc' and tInt = 100 s on a 50 Hz line, the tab's handler raises
    before the check of tInt, and no dialog is shown. *)
Lemma C7_counterexample :
  busy (keithley (example_app false (TransferTab 0 10 1 "abc") 100)) = false /\
  25 / linefreq (keithley (example_app false (TransferTab 0 10 1 "abc") 100))
    < scienDSpinBoxInt (example_app false (TransferTab 0 10 1 "abc") 100) /\
  snd (KeithleyGuiApp._on_sweep_clicked decimal_literal quiet_driver
         (example_app false (TransferTab 0 10 1 "abc") 100))
    = Raise (ValueError "Invalid drain voltage.") /\
  dialogs (fst (KeithleyGuiApp._on_sweep_clicked decimal_literal quiet_driver
                  (example_app false (TransferTab 0 10 1 "abc") 100))) = [].
Proof.
  split; [reflexivity|]. split; [vm_compute; reflexivity|].
  split; vm_compute; reflexivity.
Qed.


(** ** Parameter hand-over *)

Section HandOver.
Import KeithleyGuiApp.

Variable float : string -> option Q.
Variable driver : Driver.

(** The output tab never returns its dictionary. *)
Lemma output_tab_returns_none VdStart VdStop VdStep VgList a a' o :
  Output._on_sweep_clicked float VdStart VdStop VdStep VgList a
    = (a', Return o) ->
  o = None.
Proof.
  unfold Output._on_sweep_clicked, showMessage, modify, lift, mbind, M_bind,
    mret, M_ret.
  destruct (list_comprehension _ _); intros H; [now injection H | discriminate H].
Qed.

(** The IV tab returns a dictionary with its sweep settings. *)
Lemma iv_tab_returns_params VStart VStop VStep smu_sweep a :
  exists a' p,
    IV._on_sweep_clicked VStart VStop VStep smu_sweep a = (a', Return (Some p)) /\
    p !! "Measurement" = Some (VStr "iv") /\
    p !! "VStart" = Some (VFloat VStart) /\
    p !! "VStop" = Some (VFloat VStop) /\
    p !! "VStep" = Some (VFloat VStep) /\
    p !! "smu_sweep" = Some (VStr smu_sweep).
Proof.
  eexists _, _. split.
  - cbv [IV._on_sweep_clicked showMessage modify mbind M_bind mret M_ret].
    reflexivity.
  - repeat split; now simplify_map_eq.
Qed.

(** The transfer tab returns a dictionary with its sweep settings when
    every entry of the drain list parses. *)
Lemma transfer_tab_returns_params VgStart VgStop VgStep VdText a a' o :
  Transfer._on_sweep_clicked float VgStart VgStop VgStep VdText a
    = (a', Return o) ->
  exists p VdList,
    o = Some p /\
    list_comprehension (Transfer._string_to_Vd float) (split_comma VdText)
      = Return VdList /\
    p !! "Measurement" = Some (VStr "transfer") /\
    p !! "VgStart" = Some (VFloat VgStart) /\
    p !! "VgStop" = Some (VFloat VgStop) /\
    p !! "VgStep" = Some (VFloat VgStep) /\
    p !! "VdList" = Some (VList VdList).
Proof.
  unfold Transfer._on_sweep_clicked, showMessage, modify, lift, mbind, M_bind,
    mret, M_ret.
  destruct (list_comprehension _ _) as [l|e]; intros H; [|discriminate H].
  injection H as _ <-. eexists _, l. split; [reflexivity|].
  repeat split; now simplify_map_eq.
Qed.

(** When the output tab is selected and the instrument is not busy, the
    click ends in an exception and no thread is created. *)
Lemma output_tab_run_raises self self' r VdStart VdStop VdStep VgList :
  busy (keithley self) = false ->
  widget (tabWidgetSweeps self) (tabWidgetSweeps_currentIndex self)
    = Return (OutputTab VdStart VdStop VdStep VgList) ->
  _on_sweep_clicked float driver self = (self', r) ->
  (exists e, r = Raise e) /\
  started self' = started self /\ measureThread self' = measureThread self.
Proof.
  intros Hb Hw H.
  destruct (on_sweep_clicked_not_busy float driver _ _ _ H Hb)
    as [[He [_ [Hs Ht]]]|[Hcase|Hcase]]; [now auto| |].
  - (* the check of tInt is never reached *)
    exfalso. destruct Hcase as (-> & _).
    unfold _on_sweep_clicked in H. unfold mbind, M_bind, gets in H.
    rewrite Hb in H.
    destruct (apply_smu_settings self) as [a1 r1] eqn:E1.
    destruct (apply_smu_settings_frame _ _ _ E1) as [m ->].
    destruct r1 as [[]|e]; [|discriminate H].
    unfold lift in H. simpl in H. rewrite Hw in H.
    simpl tab_on_sweep_clicked in H.
    match type of H with
    | context [Output._on_sweep_clicked float ?a ?b ?c ?d ?s] =>
        destruct (Output._on_sweep_clicked float a b c d s) as [a2 r2] eqn:E3
    end.
    destruct r2 as [o|e]; [|discriminate H].
    apply output_tab_returns_none in E3 as ->. discriminate H.
  - exfalso. destruct Hcase as (_ & _ & _ & _ & _ & Hth).
    destruct Hth as (tw & a1 & a2 & p0 & th & Hw' & Htab & _).
    rewrite Hw in Hw'. injection Hw' as <-. simpl in Htab.
    apply output_tab_returns_none in Htab. discriminate Htab.
Qed.

End HandOver.

(** Claim C4 at its failing input.  With the output tab selected, the
    tab's handler hands [None] to the main window, the first assignment
    of an acquisition setting raises TypeError, and no thread is created. *)
Theorem C4_output_tab_hands_over_none :
  let self := example_app false (OutputTab 0 10 1 "0,10") (1 # 50) in
  snd (KeithleyGuiApp.tab_on_sweep_clicked decimal_literal
         (OutputTab 0 10 1 "0,10") self) = Return None /\
  snd (KeithleyGuiApp._on_sweep_clicked decimal_literal quiet_driver self)
    = Raise (TypeError "'NoneType' object does not support item assignment") /\
  started (fst (KeithleyGuiApp._on_sweep_clicked decimal_literal quiet_driver self))
    = [] /\
  measureThread (fst (KeithleyGuiApp._on_sweep_clicked decimal_literal quiet_driver self))
    = None.
Proof. repeat split; vm_compute; reflexivity. Qed.

(** For the transfer and IV tabs the claim of C4 holds: the thread that a
    click starts carries the tab's sweep settings and the five
    acquisition settings. *)
Lemma started_thread_carries_settings
    (float : string -> option Q) (driver : Driver)
    (self self' : App) (r : result unit) (th : MeasureThread.t) :
  KeithleyGuiApp._on_sweep_clicked float driver self = (self', r) ->
  started self' = th :: started self ->
  let p := MeasureThread.params th in
  (p !! "tInt" = Some (VFloat (scienDSpinBoxInt self)) /\
   p !! "delay" = Some (VFloat (scienDSpinBoxSettling self)) /\
   p !! "smu_gate" = Some (VSmu (currentText (comboBoxGateSMU self))) /\
   p !! "smu_drain" = Some (VSmu (currentText (comboBoxDrainSMU self))) /\
   p !! "pulsed" = Some (VBool (negb (comboBoxSweepType self =? 0)%Z))) /\
  exists tabWidget,
    KeithleyGuiApp.widget (tabWidgetSweeps self) (tabWidgetSweeps_currentIndex self)
      = Return tabWidget /\
    MeasureThread.mfunction th = KeithleyGuiApp.tab_mfunction driver tabWidget /\
    match tabWidget with
    | TransferTab VgStart VgStop VgStep VdText =>
        p !! "VgStart" = Some (VFloat VgStart) /\
        p !! "VgStop" = Some (VFloat VgStop) /\
        p !! "VgStep" = Some (VFloat VgStep) /\
        exists VdList,
          list_comprehension (Transfer._string_to_Vd float) (split_comma VdText)
            = Return VdList /\
          p !! "VdList" = Some (VList VdList)
    | IVTab VStart VStop VStep smu_sweep =>
        p !! "VStart" = Some (VFloat VStart) /\
        p !! "VStop" = Some (VFloat VStop) /\
        p !! "VStep" = Some (VFloat VStep) /\
        p !! "smu_sweep" = Some (VStr smu_sweep)
    | OutputTab _ _ _ _ => False
    end.
Proof.
  intros H Hs p.
  assert (forall (l : list MeasureThread.t) x, l <> x :: l) as Hneq.
  { intros l x E. apply (f_equal (@length _)) in E. simpl in E. lia. }
  destruct (busy (keithley self)) eqn:Hb.
  { rewrite on_sweep_clicked_busy in H by exact Hb. injection H as <- _.
    simpl in Hs. now apply Hneq in Hs. }
  destruct (on_sweep_clicked_not_busy float driver _ _ _ H Hb)
    as [(_ & _ & Hs' & _)|[(_ & _ & _ & _ & Hs' & _)|Hcase]];
    try (rewrite Hs' in Hs; now apply Hneq in Hs).
  destruct Hcase as (_ & _ & _ & _ & _ & Hth).
  destruct Hth as (tw & a1 & a2 & p0 & th' & Hw & Htab & Hp & Hm & _ & _ & Hs' & _).
  rewrite Hs' in Hs. injection Hs as ->. subst p. rewrite Hp.
  split; [repeat split; now simplify_map_eq|].
  exists tw. split; [exact Hw|]. split; [exact Hm|].
  destruct tw as [VgStart VgStop VgStep VdText| |VStart VStop VStep smu_sweep];
    simpl in Htab.
  - apply transfer_tab_returns_params in Htab
      as (p & VdList & [= <-] & Hl & _ & H1 & H2 & H3 & H4).
    repeat split; try (now simplify_map_eq).
    exists VdList. split; [exact Hl | now simplify_map_eq].
  - apply output_tab_returns_none in Htab. discriminate Htab.
  - destruct (iv_tab_returns_params VStart VStop VStep smu_sweep a1)
      as (a' & p & Heq & _ & H1 & H2 & H3 & H4).
    rewrite Heq in Htab. injection Htab as _ <-.
    repeat split; now simplify_map_eq.
Qed.

(** ** Worker thread *)

Section Worker.
Import MeasureThread.

Lemma run_returns (th : MeasureThread.t) (sd : SweepData) :
  mfunction th (MeasureThread.keithley th) (params th) = Return sd ->
  run th =
    ([startedSig; call_mfunction (MeasureThread.keithley th) (params th);
      finishedSig sd], Return tt).
Proof. intros H. unfold run, call, emit, bind. now rewrite H. Qed.

Lemma run_raises (th : MeasureThread.t) (e : exn) :
  mfunction th (MeasureThread.keithley th) (params th) = Raise e ->
  run th =
    ([startedSig; call_mfunction (MeasureThread.keithley th) (params th)],
     Raise e).
Proof. intros H. unfold run, call, emit, bind. now rewrite H. Qed.

End Worker.

(** Number of calls of the measurement function in a trace. *)
Lemma calls_in_run (th : MeasureThread.t) :
  length (List.filter (fun e => match e with
                           | MeasureThread.call_mfunction _ _ => true
                           | _ => false
                           end)
                 (fst (MeasureThread.run th))) = 1%nat.
Proof.
  destruct (MeasureThread.mfunction th (MeasureThread.keithley th)
              (MeasureThread.params th)) as [sd|e] eqn:E.
  - now rewrite (run_returns th sd E).
  - now rewrite (run_raises th e E).
Qed.

(** Claim C3, as the code has it.  Every run of the worker thread first
    emits its started signal and then calls the measurement function
    once, with the thread's driver and parameter dictionary.  When the
    call returns, the thread emits its finished signal once, carrying the
    object returned, and on that signal the main window goes to the idle
    state and enables the save action.  When the call raises, the run
    ends there, without a finished signal. *)
Theorem C3_run_hands_over_one_result (th : MeasureThread.t) (self : App) :
  let k := MeasureThread.keithley th in
  let p := MeasureThread.params th in
  let tr := fst (MeasureThread.run th) in
  (exists rest,
     tr = MeasureThread.startedSig :: MeasureThread.call_mfunction k p :: rest /\
     forall e, In e rest -> exists sd, e = MeasureThread.finishedSig sd) /\
  (forall sd, MeasureThread.mfunction th k p = Return sd ->
     MeasureThread.run th =
       ([MeasureThread.startedSig; MeasureThread.call_mfunction k p;
         MeasureThread.finishedSig sd], Return tt) /\
     let self' := fst (KeithleyGuiApp.deliver_all tr self) in
     in_state Idle (gui self') /\
     actionSaveSweepData (gui self') = true /\
     sweep_data self' = Some sd) /\
  (forall e, MeasureThread.mfunction th k p = Raise e ->
     MeasureThread.run th =
       ([MeasureThread.startedSig; MeasureThread.call_mfunction k p], Raise e)).
Proof.
  intros k p tr. subst k p tr. split; [|split].
  - destruct (MeasureThread.mfunction th (MeasureThread.keithley th)
                (MeasureThread.params th)) as [sd|e] eqn:E.
    + rewrite (run_returns th sd E). eexists. split; [reflexivity|].
      intros e [<-|[]]. now exists sd.
    + rewrite (run_raises th e E). exists []. split; [reflexivity|].
      intros e' [].
  - intros sd E. rewrite (run_returns th sd E).
    split; [reflexivity|]. now destruct self.
  - intros e E. now apply run_raises.
Qed.

Lemma C3_run_hands_over_one_result_witness :
  let self := example_app false (IVTab 0 1 (1 # 2) "smua") (1 # 50) in
  let th := example_iv_thread 0 1 (1 # 2) in
  let sd := IVSweepData [0; 1 # 2; 2 # 2] [0; 0; 0] in
  MeasureThread.run th =
    ([MeasureThread.startedSig;
      MeasureThread.call_mfunction (MeasureThread.keithley th)
                                   (MeasureThread.params th);
      MeasureThread.finishedSig sd], Return tt) /\
  let self' :=
    fst (KeithleyGuiApp.deliver_all (fst (MeasureThread.run th)) self) in
  in_state Idle (gui self') /\
  actionSaveSweepData (gui self') = true /\
  sweep_data self' = Some sd.
Proof.
  intros self th sd.
  apply (proj1 (proj2 (C3_run_hands_over_one_result th self)) sd).
  vm_compute; reflexivity.
Defined.

(** Claim C3, as stated, fails: the thread that a click on Run starts for
    an IV sweep from 0 V to 0 V calls the measurement function, which
    raises in [np.arange]; the run ends without a finished signal. *)
Lemma C3_counterexample :
  started (fst (KeithleyGuiApp._on_sweep_clicked decimal_literal quiet_driver
                  (example_app false (IVTab 0 0 1 "smua") (1 # 50))))
    = [example_iv_thread 0 0 1] /\
  MeasureThread.run (example_iv_thread 0 0 1) =
    ([MeasureThread.startedSig;
      MeasureThread.call_mfunction
        (MeasureThread.keithley (example_iv_thread 0 0 1))
        (MeasureThread.params (example_iv_thread 0 0 1))],
     Raise (ValueError "arange: cannot compute length")) /\
  forall sd,
    ~ In (MeasureThread.finishedSig sd)
         (fst (MeasureThread.run (example_iv_thread 0 0 1))).
Proof.
  assert (MeasureThread.mfunction (example_iv_thread 0 0 1)
            (MeasureThread.keithley (example_iv_thread 0 0 1))
            (MeasureThread.params (example_iv_thread 0 0 1))
          = Raise (ValueError "arange: cannot compute length")) as E
    by (vm_compute; reflexivity).
  split; [vm_compute; reflexivity|].
  rewrite (run_raises _ _ E). split; [reflexivity|].
  intros sd [H|[H|[]]]; discriminate H.
Qed.

(** * Further properties of the modelled code *)

(** ** Sweep arithmetic: count, spacing and last set-point *)

Section SweepShape.







End SweepShape.





Section SweepLast.



End SweepLast.



(** ** SMU combo boxes: nesting of the handlers, three or more SMUs, defaults *)

Section ComboSignals.
Import KeithleyGuiApp.

Lemma setCurrentIndex_unfold f c i a :
  setCurrentIndex (S f) c i a =
  if (combo_norm (combo c a) i =? currentIndex (combo c a))%Z then Some a
  else combo_handler c (setCurrentIndex f) (combo_norm (combo c a) i)
         (with_combo c a (mkComboBox (items (combo c a)) (combo_norm (combo c a) i))).
Proof. destruct c; reflexivity. Qed.

Lemma handler_unfold c set i a :
  combo_handler c set i a =
  if (i =? 0)%Z && (length (smu_list a) <? 3)%nat then set (other c) 1%Z a
  else if (i =? 1)%Z && (length (smu_list a) <? 3)%nat then set (other c) 0%Z a
  else Some a.
Proof. destruct c; reflexivity. Qed.

Lemma norm_cases cb i : combo_norm cb i = i \/ combo_norm cb i = (-1)%Z.
Proof. unfold combo_norm. destruct (_ && _); auto. Qed.

Lemma norm_idem cb i :
  combo_norm cb i <> (-1)%Z ->
  combo_norm (mkComboBox (items cb) (combo_norm cb i)) (combo_norm cb i) = combo_norm cb i.
Proof.
  unfold combo_norm. simpl. destruct (_ && _) eqn:Hv.
  - now rewrite Hv.
  - intros H. now contradiction H.
Qed.

(** The call that comes back to the combo box that started the exchange
    finds the index it asks for already set. *)
Lemma setCurrentIndex_back f c i j a :
  combo_norm (combo c a) i = i -> i <> (-1)%Z ->
  currentIndex (combo c a) = i ->
  setCurrentIndex (S f) c i
    (with_combo (other c) a (mkComboBox (items (combo (other c) a)) j))
  = Some (with_combo (other c) a (mkComboBox (items (combo (other c) a)) j)).
Proof.
  intros Hn Hi Hc. rewrite setCurrentIndex_unfold.
  assert (combo c (with_combo (other c) a
                     (mkComboBox (items (combo (other c) a)) j)) = combo c a)
    as -> by now destruct c.
  now rewrite Hn, Hc, Z.eqb_refl.
Qed.

(** The call on the other combo box ends after at most one more call. *)
Lemma setCurrentIndex_other c i a :
  combo_norm (combo c a) i = i -> (i = 0 \/ i = 1)%Z ->
  currentIndex (combo c a) = i ->
  exists a', forall f,
    setCurrentIndex (2 + f) (other c) (1 - i)%Z a = Some a'.
Proof.
  intros Hn Hi Hc.
  destruct (Z.eqb_spec (combo_norm (combo (other c) a) (1 - i))
                       (currentIndex (combo (other c) a))) as [E|E].
  { exists a. intros f. change (2 + f)%nat with (S (S f)).
    rewrite setCurrentIndex_unfold.
    now destruct (Z.eqb_spec (combo_norm (combo (other c) a) (1 - i))
                             (currentIndex (combo (other c) a))). }
  set (j := combo_norm (combo (other c) a) (1 - i)) in *.
  set (a2 := with_combo (other c) a (mkComboBox (items (combo (other c) a)) j)).
  exists a2. intros f. change (2 + f)%nat with (S (S f)).
  rewrite setCurrentIndex_unfold. fold j.
  destruct (Z.eqb_spec j (currentIndex (combo (other c) a))) as [|_];
    [contradiction|].
  fold a2. rewrite handler_unfold.
  replace (other (other c)) with c by now destruct c.
  assert (j = (1 - i)%Z \/ j = (-1)%Z) as Hj by apply norm_cases.
  destruct (length (smu_list a2) <? 3)%nat;
    rewrite ?andb_false_r, ?andb_true_r; [|reflexivity].
  destruct (Z.eqb_spec j 0) as [J0|J0].
  - assert (i = 1%Z) as Hi1 by lia.
    rewrite <- Hi1. subst a2. apply setCurrentIndex_back; auto. lia.
  - destruct (Z.eqb_spec j 1) as [J1|J1]; [|reflexivity].
    assert (i = 0%Z) as Hi0 by lia.
    rewrite <- Hi0. subst a2. apply setCurrentIndex_back; auto. lia.
Qed.

Lemma setCurrentIndex_three c i self :
  exists self', forall fuel,
    setCurrentIndex (3 + fuel) c i self = Some self'.
Proof.
  destruct (Z.eqb_spec (combo_norm (combo c self) i) (currentIndex (combo c self)))
    as [E|E].
  { exists self. intros f. change (3 + f)%nat with (S (S (S f))).
    rewrite setCurrentIndex_unfold.
    now destruct (Z.eqb_spec (combo_norm (combo c self) i)
                             (currentIndex (combo c self))). }
  set (i' := combo_norm (combo c self) i) in *.
  set (a1 := with_combo c self (mkComboBox (items (combo c self)) i')).
  assert (combo c a1 = mkComboBox (items (combo c self)) i') as Hc1
    by (subst a1; now destruct c).
  assert (i' <> (-1)%Z -> combo_norm (combo c a1) i' = i') as Hn1.
  { intros Hi. rewrite Hc1. subst i'. now apply norm_idem. }
  assert (forall f, setCurrentIndex (3 + f) c i self
                    = combo_handler c (setCurrentIndex (2 + f)) i' a1) as Hstep.
  { intros f. change (3 + f)%nat with (S (2 + f)).
    rewrite setCurrentIndex_unfold. fold i'.
    destruct (Z.eqb_spec i' (currentIndex (combo c self))); [contradiction|].
    reflexivity. }
  destruct (length (smu_list a1) <? 3)%nat eqn:Hsmall.
  2:{ exists a1. intros f. rewrite Hstep, handler_unfold, Hsmall.
      now rewrite !andb_false_r. }
  destruct (Z.eqb_spec i' 0) as [I0|I0].
  - destruct (setCurrentIndex_other c i' a1) as [a' Ha'];
      [apply Hn1; lia | lia | now rewrite Hc1 |].
    exists a'. intros f. rewrite Hstep, handler_unfold, Hsmall.
    rewrite I0 in *. apply Ha'.
  - destruct (Z.eqb_spec i' 1) as [I1|I1].
    + destruct (setCurrentIndex_other c i' a1) as [a' Ha'];
        [apply Hn1; lia | lia | now rewrite Hc1 |].
      exists a'. intros f. rewrite Hstep, handler_unfold, Hsmall.
      rewrite I1 in *. apply Ha'.
    + exists a1. intros f. rewrite Hstep, handler_unfold.
      destruct (Z.eqb_spec i' 0); [contradiction|].
      destruct (Z.eqb_spec i' 1); [contradiction|]. reflexivity.
Qed.

End ComboSignals.

(** Extra X4.  The exchange of [currentIndexChanged] signals between the
    two SMU combo boxes always ends: from every state and for every index
    asked for, [setCurrentIndex] returns within three nested calls, and
    deeper nesting is never reached. *)
Theorem X4_combo_signals_end (c : smu_combo) (i : Z) (self : App) :
  exists self',
    KeithleyGuiApp.setCurrentIndex 3 c i self = Some self' /\
    forall fuel,
      KeithleyGuiApp.setCurrentIndex (3 + fuel) c i self = Some self'.
Proof.
  destruct (setCurrentIndex_three c i self) as [self' H].
  exists self'. split; [apply (H 0%nat) | exact H].
Qed.

(** Extra X5.  With three or more SMUs the handlers do nothing: a change
    of one SMU combo box leaves the other untouched, so gate and drain
    can be put on the same SMU. *)
Theorem X5_three_smus_selections_independent
    (fuel : nat) (c : smu_combo) (i : Z) (self : App) :
  (3 <= length (smu_list self))%nat ->
  (0 <= i < Z.of_nat (length (items (KeithleyGuiApp.combo c self))))%Z ->
  exists self',
    KeithleyGuiApp.setCurrentIndex (S fuel) c i self = Some self' /\
    currentIndex (KeithleyGuiApp.combo c self') = i /\
    KeithleyGuiApp.combo (other c) self' = KeithleyGuiApp.combo (other c) self /\
    (currentIndex (KeithleyGuiApp.combo (other c) self) = i ->
     currentIndex (comboBoxGateSMU self') = currentIndex (comboBoxDrainSMU self')).
Proof.
  intros Hn Hi.
  assert ((length (smu_list self) <? 3)%nat = false) as Hbig
    by (apply Nat.ltb_ge; exact Hn).
  assert (((0 <=? i)%Z
           && (i <? Z.of_nat (length (items (KeithleyGuiApp.combo c self))))%Z)
          = true) as Hv.
  { apply andb_true_iff. split; [apply Z.leb_le | apply Z.ltb_lt]; lia. }
  simpl. rewrite Hv.
  destruct (Z.eqb_spec i (currentIndex (KeithleyGuiApp.combo c self))) as [E|E].
  - exists self. repeat split; auto. intros H. destruct c; simpl in *; lia.
  - exists (KeithleyGuiApp.with_combo c self
              (mkComboBox (items (KeithleyGuiApp.combo c self)) i)).
    split.
    + destruct c; unfold KeithleyGuiApp._on_smu_gate_changed,
        KeithleyGuiApp._on_smu_drain_changed; simpl;
        unfold smu_list in Hbig |- *; simpl; rewrite Hbig;
        rewrite !andb_false_r; reflexivity.
    + destruct c; simpl; repeat split; auto; intros H; simpl in *; lia.
Qed.

Lemma X5_three_smus_selections_independent_witness :
  let self :=
    mkApp (mkKeithley true false 50 two_smus false)
          (mkGui true false false true "    Ready." true false)
          [("smua", mkSmuTab 0 1 1); ("smub", mkSmuTab 0 1 1);
           ("smuc", mkSmuTab 0 1 1)]
          [] 0 1 1
          (mkComboBox ["smua"; "smub"; "smuc"] 0)
          (mkComboBox ["smua"; "smub"; "smuc"] 1)
          0 [] None [] None in
  exists self',
    KeithleyGuiApp.setCurrentIndex 1 Gate 1%Z self = Some self' /\
    currentIndex (KeithleyGuiApp.combo Gate self') = 1%Z /\
    KeithleyGuiApp.combo (other Gate) self' = KeithleyGuiApp.combo (other Gate) self /\
    (currentIndex (KeithleyGuiApp.combo (other Gate) self) = 1%Z ->
     currentIndex (comboBoxGateSMU self') = currentIndex (comboBoxDrainSMU self')).
Proof.
  intros self.
  apply (X5_three_smus_selections_independent 0 Gate 1%Z self).
  - simpl; lia.
  - simpl; lia.
Defined.

(** ** Defaults of the SMU combo boxes *)

Section LoadDefault.
Import KeithleyGuiApp.

Lemma py_index_bounds x l i :
  Menus.py_index x l = Some i -> (0 <= i < Z.of_nat (length l))%Z.
Proof.
  revert i. induction l as [|y l IH]; intros i; simpl; [discriminate|].
  destruct (String.eqb y x).
  - intros [= <-]. lia.
  - destruct (Menus.py_index x l) as [j|]; [|discriminate].
    intros [= <-]. specialize (IH j eq_refl). lia.
Qed.

Lemma cmb_list_two (l : list string) :
  (length l < 3)%nat -> exists a b, cmb_list l = [a; b].
Proof.
  intros H. destruct l as [|a [|b [|c l]]]; simpl in H; try lia;
    unfold cmb_list; simpl; eauto.
Qed.

End LoadDefault.

Section LoadDefault2.
Import KeithleyGuiApp.

Lemma with_combo_st c self G D cb :
  with_combo c (with_smu_combos self G D) cb =
  match c with Gate => with_smu_combos self cb D | Drain => with_smu_combos self G cb end.
Proof. now destruct c. Qed.

Lemma st_of_self self c cb :
  with_combo c self cb =
  match c with
  | Gate => with_smu_combos self cb (comboBoxDrainSMU self)
  | Drain => with_smu_combos self (comboBoxGateSMU self) cb
  end.
Proof. destruct self, c; reflexivity. Qed.

(** [clear] empties the combo box and touches nothing else. *)
Lemma clear_result fuel c self :
  Menus.clear fuel c self = Some (with_combo c self (mkComboBox [] (-1))).
Proof.
  unfold Menus.clear.
  destruct (currentIndex (combo c self) =? -1)%Z; [reflexivity|].
  destruct c; reflexivity.
Qed.

(** A change of selection between two combo boxes of at least two items,
    with fewer than three SMUs: the items stay, the combo box takes the
    index, and the other one the opposite index unless nothing changed. *)
Lemma setCurrentIndex_pair fuel c i a :
  (length (smu_list a) < 3)%nat ->
  (2 <= length (items (comboBoxGateSMU a)))%nat ->
  (2 <= length (items (comboBoxDrainSMU a)))%nat ->
  i = 0%Z \/ i = 1%Z ->
  exists a',
    setCurrentIndex (3 + fuel) c i a = Some a' /\
    smu_list a' = smu_list a /\
    items (comboBoxGateSMU a') = items (comboBoxGateSMU a) /\
    items (comboBoxDrainSMU a') = items (comboBoxDrainSMU a) /\
    currentIndex (combo c a') = i /\
    currentIndex (combo (other c) a') =
      (if (currentIndex (combo c a) =? i)%Z
       then currentIndex (combo (other c) a) else 1 - i)%Z.
Proof.
  intros Hn Hg Hd Hi.
  assert (forall c', (2 <= length (items (combo c' a)))%nat) as Hlen
    by (intros [|]; assumption).
  assert ((1 - i = 0 \/ 1 - i = 1)%Z) as Hi' by lia.
  change (3 + fuel)%nat with (S (S (S fuel))).
  destruct (Z.eqb_spec (currentIndex (combo c a)) i) as [Hsame|Hchange].
  { rewrite setCurrentIndex_same by auto. exists a. auto 10. }
  rewrite setCurrentIndex_changed by auto. cbv zeta.
  set (a1 := with_combo c a _).
  assert (smu_list a1 = smu_list a) as S1
    by (subst a1; apply smu_list_with_combo).
  rewrite handler_forces_opposite by (rewrite ?S1; assumption).
  assert (I1 : currentIndex (combo c a1) = i)
    by (subst a1; now rewrite combo_with_combo).
  assert (G1 : items (comboBoxGateSMU a1) = items (comboBoxGateSMU a))
    by (subst a1; now destruct c).
  assert (D1 : items (comboBoxDrainSMU a1) = items (comboBoxDrainSMU a))
    by (subst a1; now destruct c).
  assert (L1 : forall c', (2 <= length (items (combo c' a1)))%nat)
    by (intros [|]; simpl; rewrite ?G1, ?D1; assumption).
  destruct (Z.eq_dec (currentIndex (combo (other c) a1)) (1 - i)%Z)
    as [Hopp|Hnopp].
  - rewrite setCurrentIndex_same by auto. exists a1. auto 10.
  - rewrite setCurrentIndex_changed by auto. cbv zeta.
    set (a2 := with_combo (other c) a1 _).
    assert (smu_list a2 = smu_list a) as S2
      by (subst a2; now rewrite smu_list_with_combo).
    rewrite handler_forces_opposite by (rewrite ?S2; assumption).
    assert (I2 : currentIndex (combo c a2) = i)
      by (subst a2; destruct c; simpl in *; exact I1).
    assert (O2 : currentIndex (combo (other c) a2) = (1 - i)%Z)
      by (subst a2; now rewrite combo_with_combo).
    assert (G2 : items (comboBoxGateSMU a2) = items (comboBoxGateSMU a))
      by (subst a2; destruct c; simpl; assumption).
    assert (D2 : items (comboBoxDrainSMU a2) = items (comboBoxDrainSMU a))
      by (subst a2; destruct c; simpl; assumption).
    assert (L2 : (2 <= length (items (combo c a2)))%nat)
      by (destruct c; simpl; rewrite ?G2, ?D2; assumption).
    replace (other (other c)) with c by now destruct c.
    replace (1 - (1 - i))%Z with i by lia.
    rewrite setCurrentIndex_same by auto.
    exists a2. auto 10.
Qed.

(** Filling both emptied combo boxes with two entries leaves the gate on
    the second entry and the drain on the first. *)
Lemma fill_empty_combos fuel self x y :
  (length (smu_list self) < 3)%nat ->
  (Menus.addItems (3 + fuel) Gate [x; y]
     (with_smu_combos self (mkComboBox [] (-1)) (mkComboBox [] (-1)))
   ≫= Menus.addItems (3 + fuel) Drain [x; y])
  = Some (with_smu_combos self (mkComboBox [x; y] 1) (mkComboBox [x; y] 0)).
Proof.
  intros Hn. apply Nat.ltb_lt in Hn.
  destruct self. unfold smu_list in Hn. simpl in Hn.
  unfold Menus.addItems, with_smu_combos. simpl.
  unfold _on_smu_gate_changed, _on_smu_drain_changed, smu_list. simpl.
  rewrite !Hn. simpl. rewrite !Hn. simpl. reflexivity.
Qed.


(** The two final [setCurrentIndex] calls, from the state the filling
    leaves. *)
Lemma select_gate_then_drain fuel a ig id :
  (length (smu_list a) < 3)%nat ->
  (2 <= length (items (comboBoxGateSMU a)))%nat ->
  (2 <= length (items (comboBoxDrainSMU a)))%nat ->
  ig = 0%Z \/ ig = 1%Z -> id = 0%Z \/ id = 1%Z ->
  currentIndex (comboBoxGateSMU a) <> currentIndex (comboBoxDrainSMU a) ->
  (0 <= currentIndex (comboBoxDrainSMU a) <= 1)%Z ->
  exists a',
    (setCurrentIndex (3 + fuel) Gate ig a
     ≫= setCurrentIndex (3 + fuel) Drain id) = Some a' /\
    smu_list a' = smu_list a /\
    items (comboBoxGateSMU a') = items (comboBoxGateSMU a) /\
    items (comboBoxDrainSMU a') = items (comboBoxDrainSMU a) /\
    currentIndex (comboBoxDrainSMU a') = id /\
    currentIndex (comboBoxGateSMU a') = (1 - id)%Z.
Proof.
  intros Hn Hg Hd Hig Hid Hdiff Hrange.
  destruct (setCurrentIndex_pair fuel Gate ig a Hn Hg Hd Hig)
    as (a1 & E1 & S1 & G1 & D1 & I1 & O1).
  rewrite E1. cbn [mbind option_bind]. simpl in I1, O1.
  destruct (setCurrentIndex_pair fuel Drain id a1)
    as (a2 & E2 & S2 & G2 & D2 & I2 & O2);
    rewrite ?S1, ?G1, ?D1; auto.
  rewrite E2. simpl in I2, O2. exists a2.
  rewrite S2, G2, D2, S1, G1, D1. repeat split; auto.
  rewrite O2.
  destruct (Z.eqb_spec (currentIndex (comboBoxDrainSMU a1)) id) as [E|E];
    [|reflexivity].
  rewrite I1. rewrite O1 in E.
  destruct (Z.eqb_spec (currentIndex (comboBoxGateSMU a)) ig); lia.
Qed.

End LoadDefault2.

(** Extra X6.  With fewer than three SMUs, loading the defaults leaves
    both SMU combo boxes with the two entries of the padded SMU list and
    with different selections, whatever they held before and whatever
    names are stored.  When both stored names are entries, the drain gets
    the stored one and the gate the other entry (the stored gate, when
    the two differ), and no dialog is shown; otherwise the dialog is
    shown, the gate gets the first entry and the drain the second. *)
Theorem X6_load_default_selects_two_smus
    (fuel : nat) (conf_gate conf_drain : string) (self : App) :
  (length (smu_list self) < 3)%nat ->
  let cmb := cmb_list (smu_list self) in
  exists self' shown,
    Menus._on_load_default_smu_combos (3 + fuel) conf_gate conf_drain self
      = Some (self', shown) /\
    smu_list self' = smu_list self /\
    items (comboBoxGateSMU self') = cmb /\
    items (comboBoxDrainSMU self') = cmb /\
    currentIndex (comboBoxGateSMU self')
      = (1 - currentIndex (comboBoxDrainSMU self'))%Z /\
    (0 <= currentIndex (comboBoxDrainSMU self') <= 1)%Z /\
    match Menus.py_index conf_gate cmb, Menus.py_index conf_drain cmb with
    | Some idx_gate, Some idx_drain =>
        shown = false /\
        currentIndex (comboBoxDrainSMU self') = idx_drain /\
        (idx_gate <> idx_drain ->
         currentIndex (comboBoxGateSMU self') = idx_gate)
    | _, _ =>
        shown = true /\
        currentIndex (comboBoxGateSMU self') = 0%Z /\
        currentIndex (comboBoxDrainSMU self') = 1%Z
    end.
Proof.
  intros Hn cmb.
  destruct (cmb_list_two _ Hn) as (x & y & Hxy).
  unfold Menus._on_load_default_smu_combos. fold cmb.
  rewrite clear_result. cbn [mbind option_bind].
  rewrite clear_result. cbn [mbind option_bind].
  set (e := KeithleyGuiApp.with_combo Drain _ _).
  assert (e = with_comboBoxDrainSMU
                (with_comboBoxGateSMU self (mkComboBox [] (-1)))
                (mkComboBox [] (-1))) as -> by reflexivity.
  pose proof (fill_empty_combos fuel self x y Hn) as Hfill.
  unfold with_smu_combos in Hfill.
  subst cmb. rewrite Hxy in *.
  destruct (Menus.addItems (3 + fuel) Gate [x; y] _) as [a1|];
    [|discriminate Hfill].
  cbn [mbind option_bind] in Hfill |- *. rewrite Hfill.
  cbn [mbind option_bind]. clear Hfill a1.
  set (a := with_comboBoxDrainSMU _ _).
  assert (smu_list a = smu_list self) as Sa by (subst a; now destruct self).
  assert (items (comboBoxGateSMU a) = [x; y]) as Ga by reflexivity.
  assert (items (comboBoxDrainSMU a) = [x; y]) as Da by reflexivity.
  assert (currentIndex (comboBoxGateSMU a) = 1%Z) as Ig by reflexivity.
  assert (currentIndex (comboBoxDrainSMU a) = 0%Z) as Id by reflexivity.
  assert (forall ig id, (ig = 0 \/ ig = 1)%Z -> (id = 0 \/ id = 1)%Z ->
            exists a',
              (KeithleyGuiApp.setCurrentIndex (3 + fuel) Gate ig a
               ≫= KeithleyGuiApp.setCurrentIndex (3 + fuel) Drain id)
                = Some a' /\
              smu_list a' = smu_list self /\
              items (comboBoxGateSMU a') = [x; y] /\
              items (comboBoxDrainSMU a') = [x; y] /\
              currentIndex (comboBoxDrainSMU a') = id /\
              currentIndex (comboBoxGateSMU a') = (1 - id)%Z) as Hsel.
  { intros ig id Hig Hid.
    destruct (select_gate_then_drain fuel a ig id)
      as (a' & E & S & G & D & I1 & I2);
      rewrite ?Sa, ?Ga, ?Da, ?Ig, ?Id; simpl; auto; try lia.
    exists a'. rewrite <- Sa, <- Ga at 1. rewrite <- Da at 2. auto 10. }
  clearbody a.
  destruct (Menus.py_index conf_gate [x; y]) as [ig|] eqn:Eg.
  - destruct (Menus.py_index conf_drain [x; y]) as [id|] eqn:Ed.
    + apply py_index_bounds in Eg, Ed. simpl in Eg, Ed.
      destruct (Hsel ig id) as (a' & E & S & G & D & I1 & I2); try lia.
      destruct (KeithleyGuiApp.setCurrentIndex (3 + fuel) Gate ig a)
        as [a1|]; [|discriminate E].
      cbn [mbind option_bind] in E |- *. rewrite E. cbn [mbind option_bind].
      exists a', false. rewrite I1, I2. repeat split; auto; lia.
    + destruct (Hsel 0%Z 1%Z) as (a' & E & S & G & D & I1 & I2); try lia.
      destruct (KeithleyGuiApp.setCurrentIndex (3 + fuel) Gate 0 a)
        as [a1|]; [|discriminate E].
      cbn [mbind option_bind] in E |- *. rewrite E. cbn [mbind option_bind].
      exists a', true. rewrite I1, I2. repeat split; auto; lia.
  - destruct (Hsel 0%Z 1%Z) as (a' & E & S & G & D & I1 & I2); try lia.
    destruct (KeithleyGuiApp.setCurrentIndex (3 + fuel) Gate 0 a)
      as [a1|]; [|discriminate E].
    cbn [mbind option_bind] in E |- *. rewrite E. cbn [mbind option_bind].
    exists a', true. rewrite I1, I2. repeat split; auto; lia.
Qed.

Lemma X6_load_default_selects_two_smus_witness :
  let self := example_app false (IVTab 0 1 1 "smua") (1 # 50) in
  (length (smu_list self) < 3)%nat /\
  exists self' shown,
    Menus._on_load_default_smu_combos 3 "smub" "smua" self
      = Some (self', shown) /\
    shown = false /\
    currentIndex (comboBoxGateSMU self') = 1%Z /\
    currentIndex (comboBoxDrainSMU self') = 0%Z.
Proof.
  intros self.
  assert ((length (smu_list self) < 3)%nat) as H by (simpl; lia).
  split; [exact H|].
  destruct (X6_load_default_selects_two_smus 0 "smub" "smua" self H)
    as (s & sh & E & _ & _ & _ & _ & _ & M).
  simpl in M. destruct M as (Hsh & Hd & Hg).
  exists s, sh. repeat split; try assumption. apply Hg. discriminate.
Defined.

(** ** Disconnect *)

(** Extra X7.  The Disconnect action always ends with the driver
    disconnected and the window in the disconnected state, whatever the
    flags were before; the SMU settings, dialogs and threads are left as
    they were. *)
Theorem X7_disconnect_ends_disconnected (q : model_query) (self : App) :
  let self' := Menus._on_disconnect_clicked q self in
  connected (keithley self') = false /\
  in_state Disconnected (gui self') /\
  busy (keithley self') = busy (keithley self) /\
  smus (keithley self') = smus (keithley self) /\
  actionSaveSweepData (gui self') = actionSaveSweepData (gui self) /\
  dialogs self' = dialogs self /\
  started self' = started self /\
  measureThread self' = measureThread self.
Proof.
  unfold Menus._on_disconnect_clicked, KeithleyGuiApp._update_gui_connection.
  destruct self as [[c b f m ab] g ? ? ? ? ? ? ? ? ? ? ? ?]. simpl.
  repeat split.
Qed.

(** ** Plugin discovery *)

Section PluginFacts.
Import Plugins.

Lemma prefix_dunder_dot (s : string) : String.prefix "__" ("." +:+ s) = false.
Proof. reflexivity. Qed.

Lemma filter_all_true {A} (f : A -> bool) (l : list A) :
  (forall x, In x l -> f x = true) -> List.filter f l = l.
Proof.
  induction l as [|x l IH]; intros H; simpl; [reflexivity|].
  rewrite (H x) by now left. f_equal. apply IH. intros y Hy. apply H. now right.
Qed.

End PluginFacts.

(** Extra X8.  The test [startswith('__')] of [importMeasurements] never
    drops a plugin: it is applied to the module name after the leading
    '.' was put in front, so every file that the pattern '.py$' selects is
    imported, '__init__.py' included. *)
Theorem X8_import_keeps_dunder_files (listdir : list string) :
  Plugins.importMeasurements listdir =
    map Plugins.form_module (List.filter Plugins.pysearch listdir) /\
  (forall fp, In fp listdir -> Plugins.pysearch fp = true ->
              In (Plugins.form_module fp) (Plugins.importMeasurements listdir)) /\
  (In "__init__.py" listdir ->
   In ".__init__" (Plugins.importMeasurements listdir)).
Proof.
  assert (Plugins.importMeasurements listdir =
          map Plugins.form_module (List.filter Plugins.pysearch listdir)) as E.
  { unfold Plugins.importMeasurements. apply filter_all_true.
    intros x Hx. apply List.in_map_iff in Hx as [fp [<- _]].
    unfold Plugins.form_module. now rewrite prefix_dunder_dot. }
  split; [exact E|].
  assert (forall fp, In fp listdir -> Plugins.pysearch fp = true ->
            In (Plugins.form_module fp) (Plugins.importMeasurements listdir))
    as H.
  { intros fp Hin Hs. rewrite E. apply List.in_map.
    apply List.filter_In. now split. }
  split; [exact H|].
  intros Hin. apply (H "__init__.py" Hin). reflexivity.
Qed.

(** ** SMU settings *)

Section SmuSettings.
Import KeithleyGuiApp.

Lemma apply_smu_tab_found name tab a old :
  smus (keithley a) !! name = Some old ->
  apply_smu_tab name tab a =
    (with_keithley a (with_smus (keithley a)
                        (<[name := smu_written tab old]> (smus (keithley a)))),
     Return tt).
Proof.
  intros H. unfold apply_smu_tab, mbind, M_bind, gets, lift, modify, getattr.
  rewrite H. unfold smu_written.
  destruct (comboBox tab =? 0)%Z; [reflexivity|].
  destruct (comboBox tab =? 1)%Z; [reflexivity|]. now destruct old.
Qed.

Lemma apply_smu_tab_missing name tab a :
  smus (keithley a) !! name = None ->
  apply_smu_tab name tab a = (a, Raise (AttributeError name)).
Proof.
  intros H. unfold apply_smu_tab, mbind, M_bind, gets, lift, getattr.
  now rewrite H.
Qed.

Lemma apply_smu_tabs_writes tabs : forall a a',
  List.NoDup (map fst tabs) ->
  apply_smu_tabs tabs a = (a', Return tt) ->
  (forall name tab, In (name, tab) tabs ->
     exists old,
       smus (keithley a) !! name = Some old /\
       smus (keithley a') !! name = Some (smu_written tab old)) /\
  (forall name, ~ In name (map fst tabs) ->
     smus (keithley a') !! name = smus (keithley a) !! name).
Proof.
  induction tabs as [|[n t] rest IH]; intros a a' Hnd H; simpl in H.
  - injection H as <-. split; [intros ? ? []|reflexivity].
  - simpl in Hnd. apply List.NoDup_cons_iff in Hnd as [Hn Hnd].
    unfold mbind, M_bind in H.
    destruct (smus (keithley a) !! n) as [old|] eqn:En.
    2:{ rewrite apply_smu_tab_missing in H by exact En. discriminate H. }
    rewrite (apply_smu_tab_found _ _ _ _ En) in H.
    apply IH in H as [Hin Hout]; [|exact Hnd].
    simpl in Hin, Hout. split.
    + intros name tab [[= <- <-]|Hrest].
      * exists old. split; [exact En|].
        rewrite Hout by exact Hn. apply lookup_insert_eq.
      * destruct (Hin name tab Hrest) as [old' [H1 H2]].
        assert (n <> name) as Hne.
        { intros ->. apply Hn. apply List.in_map_iff. now exists (name, tab). }
        rewrite lookup_insert_ne in H1 by exact Hne. eauto.
    + intros name Hname. simpl in Hname.
      rewrite Hout by tauto. apply lookup_insert_ne. tauto.
Qed.

Lemma find_ext {A} (f g : A -> bool) (l : list A) :
  (forall x, f x = g x) -> List.find f l = List.find g l.
Proof.
  intros H. induction l as [|x l IH]; simpl; [reflexivity|].
  rewrite H, IH. reflexivity.
Qed.

(** Outcome of the loop: the first SMU name the driver does not have. *)
Lemma apply_smu_tabs_outcome tabs : forall a,
  snd (apply_smu_tabs tabs a) =
  match List.find (fun name => match smus (keithley a) !! name with
                               | None => true
                               | Some _ => false
                               end) (map fst tabs) with
  | Some name => Raise (AttributeError name)
  | None => Return tt
  end.
Proof.
  induction tabs as [|[n t] rest IH]; intros a; simpl; [reflexivity|].
  unfold mbind, M_bind.
  destruct (smus (keithley a) !! n) as [old|] eqn:En.
  - rewrite (apply_smu_tab_found _ _ _ _ En). rewrite IH.
    simpl keithley. simpl smus.
    erewrite find_ext; [reflexivity|]. intros name. simpl.
    destruct (String.eqb_spec n name) as [->|Hne].
    + now rewrite lookup_insert_eq, En.
    + now rewrite lookup_insert_ne.
  - now rewrite apply_smu_tab_missing.
Qed.

End SmuSettings.

(** Extra X9.  When [apply_smu_settings] returns, every SMU that has a
    settings tab carries the tab's values: the current limit on both
    [source.limiti] and [trigger.source.limiti], the voltage limit on
    both [source.limitv] and [trigger.source.limitv], and the sense mode
    chosen (local for index 0, remote for index 1, unchanged otherwise).
    SMU objects without a tab are left as they were. *)
Theorem X9_apply_smu_settings_writes (self self' : App) :
  List.NoDup (smu_list self) ->
  KeithleyGuiApp.apply_smu_settings self = (self', Return tt) ->
  (forall name tab, In (name, tab) (smu_tabs self) ->
     exists old new,
       smus (keithley self) !! name = Some old /\
       smus (keithley self') !! name = Some new /\
       source_limiti new = scienDSpinBoxLimI tab /\
       trigger_source_limiti new = scienDSpinBoxLimI tab /\
       source_limitv new = scienDSpinBoxLimV tab /\
       trigger_source_limitv new = scienDSpinBoxLimV tab /\
       sense new = (if (comboBox tab =? 0)%Z then SENSE_LOCAL
                    else if (comboBox tab =? 1)%Z then SENSE_REMOTE
                    else sense old)) /\
  (forall name, ~ In name (smu_list self) ->
     smus (keithley self') !! name = smus (keithley self) !! name).
Proof.
  intros Hnd H. unfold KeithleyGuiApp.apply_smu_settings in H.
  unfold mbind, M_bind, gets in H.
  destruct (apply_smu_tabs_writes _ _ _ Hnd H) as [Hin Hout].
  split; [|exact Hout].
  intros name tab Hn. destruct (Hin name tab Hn) as [old [H1 H2]].
  eexists old, _. split; [exact H1|]. split; [exact H2|]. repeat split.
Qed.

Lemma X9_apply_smu_settings_writes_witness :
  let self := example_app false (IVTab 0 1 1 "smua") (1 # 50) in
  exists old new,
    smus (keithley self) !! "smub" = Some old /\
    smus (keithley (fst (KeithleyGuiApp.apply_smu_settings self))) !! "smub"
      = Some new /\
    source_limiti new = 1 # 100 /\
    trigger_source_limiti new = 1 # 100 /\
    source_limitv new = 10 /\
    trigger_source_limitv new = 10 /\
    sense new = SENSE_REMOTE.
Proof.
  intros self.
  assert (List.NoDup (smu_list self)) as Hnd.
  { repeat constructor; simpl; intros H; repeat destruct H as [H|H];
      try discriminate H; exact H. }
  assert (snd (KeithleyGuiApp.apply_smu_settings self) = Return tt) as Hs
    by (vm_compute; reflexivity).
  assert (KeithleyGuiApp.apply_smu_settings self
          = (fst (KeithleyGuiApp.apply_smu_settings self), Return tt)) as E
    by (rewrite <- Hs; apply surjective_pairing).
  exact (proj1 (X9_apply_smu_settings_writes self _ Hnd E) "smub"
               (mkSmuTab 1 (1 # 100) 10) (or_intror (or_introl eq_refl))).
Defined.

(** Extra X10.  [apply_smu_settings] raises exactly when the driver lacks
    an SMU that has a settings tab, and the AttributeError names the first
    such SMU in the order of the tabs. *)
Theorem X10_apply_smu_settings_first_missing (self : App) :
  snd (KeithleyGuiApp.apply_smu_settings self) =
  match List.find (fun name => match smus (keithley self) !! name with
                               | None => true
                               | Some _ => false
                               end) (smu_list self) with
  | Some name => Raise (AttributeError name)
  | None => Return tt
  end.
Proof.
  unfold KeithleyGuiApp.apply_smu_settings, mbind, M_bind, gets.
  apply apply_smu_tabs_outcome.
Qed.

(** ** Run button: the path to the worker thread *)

Section RunPath.
Import KeithleyGuiApp.

Variable float : string -> option Q.
Variable driver : Driver.

(** Writing SMU objects never removes one. *)
Lemma apply_smu_tabs_keeps tabs : forall a name,
  is_Some (smus (keithley a) !! name) ->
  is_Some (smus (keithley (fst (apply_smu_tabs tabs a))) !! name).
Proof.
  induction tabs as [|[n t] rest IH]; intros a name H; simpl; [exact H|].
  unfold mbind, M_bind.
  destruct (smus (keithley a) !! n) as [old|] eqn:En.
  - rewrite (apply_smu_tab_found _ _ _ _ En). apply IH. simpl.
    destruct (String.eqb_spec n name) as [->|Hne].
    + rewrite lookup_insert_eq. eauto.
    + now rewrite lookup_insert_ne.
  - rewrite apply_smu_tab_missing by exact En. exact H.
Qed.

Lemma apply_smu_settings_succeeds self :
  (forall name, In name (smu_list self) ->
                is_Some (smus (keithley self) !! name)) ->
  exists m,
    apply_smu_settings self =
      (with_keithley self (with_smus (keithley self) m), Return tt) /\
    forall name, is_Some (smus (keithley self) !! name) -> is_Some (m !! name).
Proof.
  intros Hall.
  destruct (apply_smu_settings self) as [a1 r1] eqn:E1.
  destruct (apply_smu_settings_frame _ _ _ E1) as [m ->].
  exists m. split.
  - f_equal.
    change r1 with (snd (with_keithley self (with_smus (keithley self) m), r1)).
    rewrite <- E1. unfold apply_smu_settings, mbind, M_bind, gets.
    rewrite apply_smu_tabs_outcome.
    destruct (List.find _ _) as [name|] eqn:Ef; [|reflexivity].
    apply List.find_some in Ef as [Hin Hmiss].
    destruct (Hall name Hin) as [smu Hsmu]. now rewrite Hsmu in Hmiss.
  - intros name Hname.
    pose proof (apply_smu_tabs_keeps (smu_tabs self) self name Hname) as Hk.
    unfold apply_smu_settings, mbind, M_bind, gets in E1.
    rewrite E1 in Hk. exact Hk.
Qed.

(** A click that meets no exception: the exact outcome. *)
Lemma on_sweep_clicked_reaches_check self tabWidget p0 :
  busy (keithley self) = false ->
  (forall name, In name (smu_list self) ->
                is_Some (smus (keithley self) !! name)) ->
  widget (tabWidgetSweeps self) (tabWidgetSweeps_currentIndex self)
    = Return tabWidget ->
  (forall a, snd (tab_on_sweep_clicked float tabWidget a) = Return (Some p0)) ->
  is_Some (smus (keithley self) !! currentText (comboBoxGateSMU self)) ->
  is_Some (smus (keithley self) !! currentText (comboBoxDrainSMU self)) ->
  ~ linefreq (keithley self) == 0 ->
  let freq := linefreq (keithley self) in
  let tInt := scienDSpinBoxInt self in
  let base := at_check float self tabWidget in
  _on_sweep_clicked float driver self =
    if tInt_out_of_range self
    then (with_dialogs base (InfoIntegrationTime freq :: dialogs self), Return tt)
    else
      let th := MeasureThread.mk (keithley base) (acquisition self p0)
                                 (tab_mfunction driver tabWidget) in
      (with_started
         (with_gui (with_measureThread base (Some th))
                   (_gui_state_busy (gui base)))
         (th :: started self), Return tt).
Proof.
  intros Hb Hall Hw Htab Hg Hd Hf freq tInt base.
  unfold _on_sweep_clicked. unfold mbind, M_bind, gets. rewrite Hb.
  destruct (apply_smu_settings_succeeds self Hall) as (m & E1 & Hm).
  subst base. unfold at_check. rewrite E1. simpl fst.
  unfold lift. simpl. rewrite Hw.
  match goal with
  | |- context [tab_on_sweep_clicked float tabWidget ?a] =>
      destruct (tab_on_sweep_clicked float tabWidget a) as [a2 r2] eqn:E3;
      pose proof (Htab a) as Hr; rewrite E3 in Hr; simpl in Hr; subst r2
  end.
  destruct (tab_on_sweep_clicked_frame _ _ _ _ _ E3) as [g ->].
  simpl setitem. unfold getattr_smu, mbind, M_bind, gets, lift, mret, M_ret.
  simpl. unfold getattr.
  destruct (Hm _ Hg) as [smug Hsg]. destruct (Hm _ Hd) as [smud Hsd].
  change (smus (with_smus (keithley self) m)) with m.
  rewrite Hsg. simpl.
  change (smus (with_smus (keithley self) m)) with m.
  rewrite Hsd. simpl.
  unfold get_float, getitem.
  rewrite !lookup_insert_ne, lookup_insert_eq by discriminate.
  unfold tInt_out_of_range. fold freq tInt. unfold py_div.
  rewrite (Qeq_bool_false freq Hf).
  destruct (negb (Qle_bool tInt (25 / freq))); simpl; [reflexivity|].
  destruct (negb (Qle_bool ((1 # 1000) / freq) tInt)); simpl; reflexivity.
Qed.

End RunPath.

Section RunOutcomes.
Import KeithleyGuiApp.

Variable float : string -> option Q.
Variable driver : Driver.

(** Whatever a tab's handler returns, the state it leaves is the one
    after its status message. *)
Lemma tab_on_sweep_clicked_state tabWidget a :
  fst (tab_on_sweep_clicked float tabWidget a)
  = fst (showMessage (recording_message tabWidget) a).
Proof.
  destruct tabWidget; simpl;
    unfold Transfer._on_sweep_clicked, Output._on_sweep_clicked,
      IV._on_sweep_clicked, mbind, M_bind, lift, mret, M_ret;
    simpl; try destruct (list_comprehension _ _); reflexivity.
Qed.

Lemma at_check_form self tabWidget :
  (forall name, In name (smu_list self) ->
                is_Some (smus (keithley self) !! name)) ->
  exists m,
    apply_smu_settings self =
      (with_keithley self (with_smus (keithley self) m), Return tt) /\
    (forall name, is_Some (smus (keithley self) !! name) -> is_Some (m !! name)) /\
    at_check float self tabWidget =
      with_gui (with_keithley self (with_smus (keithley self) m))
        (mkGui (pushButtonRun (gui self)) (pushButtonAbort (gui self))
               (actionConnect (gui self)) (actionDisconnect (gui self))
               (recording_message tabWidget) (led (gui self))
               (actionSaveSweepData (gui self))).
Proof.
  intros Hall.
  destruct (apply_smu_settings_succeeds self Hall) as (m & E1 & Hm).
  exists m. split; [exact E1|]. split; [exact Hm|].
  unfold at_check. rewrite E1, tab_on_sweep_clicked_state. reflexivity.
Qed.

Lemma in_range_not_out self :
  (1 # 1000) / linefreq (keithley self) <= scienDSpinBoxInt self ->
  scienDSpinBoxInt self <= 25 / linefreq (keithley self) ->
  tInt_out_of_range self = false.
Proof.
  intros Hlo Hhi. unfold tInt_out_of_range.
  apply Qle_bool_iff in Hlo, Hhi. now rewrite Hlo, Hhi.
Qed.

Lemma out_of_range_out self :
  25 / linefreq (keithley self) < scienDSpinBoxInt self \/
  scienDSpinBoxInt self < (1 # 1000) / linefreq (keithley self) ->
  tInt_out_of_range self = true.
Proof.
  intros H. unfold tInt_out_of_range. apply orb_true_iff.
  destruct H as [H|H]; [left|right]; now apply not_Qle_bool.
Qed.

End RunOutcomes.

(** Extra X11.  Conditions under which a click on Run does start the
    measurement: the instrument is not busy, the driver has every SMU that
    has a settings tab and the two selected as gate and drain, the
    selected tab returns its dictionary, and tInt lies within
    0.001/linefreq .. 25/linefreq.  The click then returns normally, shows
    no dialog, creates and starts exactly one thread, which carries the
    tab's dictionary with the acquisition settings and the tab's
    measurement function, and leaves the window in the busy state.  The
    handler does not raise the driver's busy flag. *)
Theorem X11_run_starts_thread
    (float : string -> option Q) (driver : Driver)
    (self : App) (tabWidget : MeasurementTab) (p0 : gmap string pyval) :
  busy (keithley self) = false ->
  (forall name, In name (smu_list self) ->
                is_Some (smus (keithley self) !! name)) ->
  KeithleyGuiApp.widget (tabWidgetSweeps self) (tabWidgetSweeps_currentIndex self)
    = Return tabWidget ->
  (forall a, snd (KeithleyGuiApp.tab_on_sweep_clicked float tabWidget a)
             = Return (Some p0)) ->
  is_Some (smus (keithley self) !! currentText (comboBoxGateSMU self)) ->
  is_Some (smus (keithley self) !! currentText (comboBoxDrainSMU self)) ->
  ~ linefreq (keithley self) == 0 ->
  (1 # 1000) / linefreq (keithley self) <= scienDSpinBoxInt self ->
  scienDSpinBoxInt self <= 25 / linefreq (keithley self) ->
  exists self' th,
    KeithleyGuiApp._on_sweep_clicked float driver self = (self', Return tt) /\
    started self' = th :: started self /\
    measureThread self' = Some th /\
    MeasureThread.params th = acquisition self p0 /\
    MeasureThread.mfunction th = KeithleyGuiApp.tab_mfunction driver tabWidget /\
    MeasureThread.keithley th = keithley self' /\
    in_state Busy (gui self') /\
    dialogs self' = dialogs self /\
    busy (keithley self') = false.
Proof.
  intros Hb Hall Hw Htab Hg Hd Hf Hlo Hhi.
  rewrite (on_sweep_clicked_reaches_check float driver self tabWidget p0)
    by assumption.
  rewrite in_range_not_out by assumption. cbv zeta.
  destruct (at_check_form float self tabWidget Hall) as (m & _ & _ & ->).
  eexists _, _. split; [reflexivity|]. simpl. repeat split. exact Hb.
Qed.

Lemma X11_run_starts_thread_witness :
  let self := example_app false (IVTab 0 1 (1 # 2) "smua") (1 # 50) in
  exists self' th,
    KeithleyGuiApp._on_sweep_clicked decimal_literal quiet_driver self
      = (self', Return tt) /\
    started self' = th :: started self /\
    measureThread self' = Some th /\
    MeasureThread.params th =
      acquisition self
        (<["smu_sweep" := VStr "smua"]>
           (<["VStep" := VFloat (1 # 2)]>
              (<["VStop" := VFloat 1]>
                 (<["VStart" := VFloat 0]>
                    {[ "Measurement" := VStr "iv" ]})))) /\
    MeasureThread.mfunction th =
      KeithleyGuiApp.tab_mfunction quiet_driver (IVTab 0 1 (1 # 2) "smua") /\
    MeasureThread.keithley th = keithley self' /\
    in_state Busy (gui self') /\
    dialogs self' = dialogs self /\
    busy (keithley self') = false.
Proof.
  intros self.
  apply (X11_run_starts_thread decimal_literal quiet_driver self
           (IVTab 0 1 (1 # 2) "smua")).
  - reflexivity.
  - intros name [<-|[<-|[]]]; vm_compute; eauto.
  - reflexivity.
  - intros a. reflexivity.
  - vm_compute; eauto.
  - vm_compute; eauto.
  - vm_compute. discriminate.
  - vm_compute. discriminate.
  - vm_compute. discriminate.
Defined.

(** Extra X12.  A click that is refused because tInt is out of range has
    already done the first half of the handler: the SMU settings are
    written to the driver, and the status bar keeps the tab's 'Recording
    ...' message although nothing is recorded.  The buttons and the LED
    stay as they were and no thread is created. *)
Theorem X12_refused_run_leaves_traces
    (float : string -> option Q) (driver : Driver)
    (self : App) (tabWidget : MeasurementTab) (p0 : gmap string pyval) :
  busy (keithley self) = false ->
  (forall name, In name (smu_list self) ->
                is_Some (smus (keithley self) !! name)) ->
  KeithleyGuiApp.widget (tabWidgetSweeps self) (tabWidgetSweeps_currentIndex self)
    = Return tabWidget ->
  (forall a, snd (KeithleyGuiApp.tab_on_sweep_clicked float tabWidget a)
             = Return (Some p0)) ->
  is_Some (smus (keithley self) !! currentText (comboBoxGateSMU self)) ->
  is_Some (smus (keithley self) !! currentText (comboBoxDrainSMU self)) ->
  ~ linefreq (keithley self) == 0 ->
  25 / linefreq (keithley self) < scienDSpinBoxInt self \/
  scienDSpinBoxInt self < (1 # 1000) / linefreq (keithley self) ->
  exists self',
    KeithleyGuiApp._on_sweep_clicked float driver self = (self', Return tt) /\
    keithley self' = keithley (fst (KeithleyGuiApp.apply_smu_settings self)) /\
    statusBar (gui self') = recording_message tabWidget /\
    pushButtonRun (gui self') = pushButtonRun (gui self) /\
    pushButtonAbort (gui self') = pushButtonAbort (gui self) /\
    led (gui self') = led (gui self) /\
    dialogs self' = InfoIntegrationTime (linefreq (keithley self)) :: dialogs self /\
    started self' = started self /\
    measureThread self' = measureThread self.
Proof.
  intros Hb Hall Hw Htab Hg Hd Hf Hout.
  rewrite (on_sweep_clicked_reaches_check float driver self tabWidget p0)
    by assumption.
  rewrite out_of_range_out by assumption. cbv zeta.
  destruct (at_check_form float self tabWidget Hall) as (m & E & _ & ->).
  eexists. split; [reflexivity|]. rewrite E. simpl. repeat split.
Qed.

Lemma X12_refused_run_leaves_traces_witness :
  let self := example_app false (IVTab 0 1 (1 # 2) "smua") 100 in
  exists self',
    KeithleyGuiApp._on_sweep_clicked decimal_literal quiet_driver self
      = (self', Return tt) /\
    keithley self' = keithley (fst (KeithleyGuiApp.apply_smu_settings self)) /\
    statusBar (gui self') = recording_message (IVTab 0 1 (1 # 2) "smua") /\
    pushButtonRun (gui self') = pushButtonRun (gui self) /\
    pushButtonAbort (gui self') = pushButtonAbort (gui self) /\
    led (gui self') = led (gui self) /\
    dialogs self' = InfoIntegrationTime (linefreq (keithley self)) :: dialogs self /\
    started self' = started self /\
    measureThread self' = measureThread self.
Proof.
  intros self.
  apply (X12_refused_run_leaves_traces decimal_literal quiet_driver self
           (IVTab 0 1 (1 # 2) "smua")
           (<["smu_sweep" := VStr "smua"]>
              (<["VStep" := VFloat (1 # 2)]>
                 (<["VStop" := VFloat 1]>
                    (<["VStart" := VFloat 0]>
                       {[ "Measurement" := VStr "iv" ]}))))).
  - reflexivity.
  - intros name [<-|[<-|[]]]; vm_compute; eauto.
  - reflexivity.
  - intros a. reflexivity.
  - vm_compute; eauto.
  - vm_compute; eauto.
  - vm_compute. discriminate.
  - left. vm_compute. reflexivity.
Defined.

(** Extra X13.  Nothing in the window keeps a second measurement from
    starting while the driver's busy flag is down: after a click has
    started a thread, a poll that finds the driver connected and not busy
    puts the window back to idle with Run enabled, and a second click
    then starts a second thread beside the first. *)
Theorem X13_second_run_while_flag_down
    (float : string -> option Q) (driver : Driver)
    (self : App) (tabWidget : MeasurementTab) (p0 : gmap string pyval)
    (model : string) :
  connected (keithley self) = true ->
  busy (keithley self) = false ->
  (forall name, In name (smu_list self) ->
                is_Some (smus (keithley self) !! name)) ->
  KeithleyGuiApp.widget (tabWidgetSweeps self) (tabWidgetSweeps_currentIndex self)
    = Return tabWidget ->
  (forall a, snd (KeithleyGuiApp.tab_on_sweep_clicked float tabWidget a)
             = Return (Some p0)) ->
  is_Some (smus (keithley self) !! currentText (comboBoxGateSMU self)) ->
  is_Some (smus (keithley self) !! currentText (comboBoxDrainSMU self)) ->
  ~ linefreq (keithley self) == 0 ->
  (1 # 1000) / linefreq (keithley self) <= scienDSpinBoxInt self ->
  scienDSpinBoxInt self <= 25 / linefreq (keithley self) ->
  exists self1 th1 self3 th2,
    KeithleyGuiApp._on_sweep_clicked float driver self = (self1, Return tt) /\
    started self1 = th1 :: started self /\
    let self2 := KeithleyGuiApp._update_gui_connection (ModelIs model) self1 in
    in_state Idle (gui self2) /\
    pushButtonRun (gui self2) = true /\
    KeithleyGuiApp._on_sweep_clicked float driver self2 = (self3, Return tt) /\
    started self3 = th2 :: th1 :: started self.
Proof.
  intros Hc Hb Hall Hw Htab Hg Hd Hf Hlo Hhi.
  pose proof (on_sweep_clicked_reaches_check float driver self tabWidget p0
                Hb Hall Hw Htab Hg Hd Hf) as E1.
  cbv zeta in E1. rewrite in_range_not_out in E1 by assumption.
  destruct (at_check_form float self tabWidget Hall) as (m & _ & Hm & Hbase).
  rewrite Hbase in E1. clear Hbase.
  match type of E1 with
  | context [with_started _ (?t :: _)] => set (th1 := t) in *
  end.
  match type of E1 with _ = (?s, _) => set (self1 := s) in * end.
  assert (KeithleyGuiApp._update_gui_connection (ModelIs model) self1
          = with_gui self1 (KeithleyGuiApp._gui_state_idle (gui self1))) as E2.
  { unfold KeithleyGuiApp._update_gui_connection. subst self1. simpl.
    now rewrite Hc, Hb. }
  set (self2 := with_gui self1 (KeithleyGuiApp._gui_state_idle (gui self1)))
    in *.
  assert (exists self3 th2,
            KeithleyGuiApp._on_sweep_clicked float driver self2
              = (self3, Return tt) /\
            started self3 = th2 :: th1 :: started self) as (self3 & th2 & E3 & S3).
  { rewrite (on_sweep_clicked_reaches_check float driver self2 tabWidget p0).
    - assert (tInt_out_of_range self2 = false) as ->
        by (apply in_range_not_out; assumption).
      cbv zeta. eexists _, _. split; reflexivity.
    - exact Hb.
    - intros name Hn. apply Hm. now apply Hall.
    - exact Hw.
    - exact Htab.
    - apply Hm. exact Hg.
    - apply Hm. exact Hd.
    - exact Hf. }
  exists self1, th1, self3, th2. split; [exact E1|]. split; [reflexivity|].
  cbv zeta. rewrite E2. repeat split; assumption.
Qed.

Lemma X13_second_run_while_flag_down_witness :
  let self := example_app false (IVTab 0 1 (1 # 2) "smua") (1 # 50) in
  exists self1 th1 self3 th2,
    KeithleyGuiApp._on_sweep_clicked decimal_literal quiet_driver self
      = (self1, Return tt) /\
    started self1 = th1 :: started self /\
    let self2 :=
      KeithleyGuiApp._update_gui_connection (ModelIs "2636B") self1 in
    in_state Idle (gui self2) /\
    pushButtonRun (gui self2) = true /\
    KeithleyGuiApp._on_sweep_clicked decimal_literal quiet_driver self2
      = (self3, Return tt) /\
    started self3 = th2 :: th1 :: started self.
Proof.
  intros self.
  apply (X13_second_run_while_flag_down decimal_literal quiet_driver self
           (IVTab 0 1 (1 # 2) "smua")
           (<["smu_sweep" := VStr "smua"]>
              (<["VStep" := VFloat (1 # 2)]>
                 (<["VStop" := VFloat 1]>
                    (<["VStart" := VFloat 0]>
                       {[ "Measurement" := VStr "iv" ]}))))
           "2636B").
  - reflexivity.
  - reflexivity.
  - intros name [<-|[<-|[]]]; vm_compute; eauto.
  - reflexivity.
  - intros a. reflexivity.
  - vm_compute; eauto.
  - vm_compute; eauto.
  - vm_compute. discriminate.
  - vm_compute. discriminate.
  - vm_compute. discriminate.
Defined.

(** ** From the widgets to the driver *)

(** Extra X14.  The thread that a click starts for the transfer tab calls
    [transferMeasurement] with what the widgets held at the click: the
    gate and drain SMUs selected, the three gate-voltage values, the
    parsed drain list, tInt, the delay and the pulsed flag. *)
Theorem X14_transfer_thread_calls_driver
    (float : string -> option Q) (driver : Driver)
    (self self' : App) (r : result unit) (th : MeasureThread.t)
    (VgStart VgStop VgStep : Q) (VdText : string) :
  KeithleyGuiApp._on_sweep_clicked float driver self = (self', r) ->
  started self' = th :: started self ->
  KeithleyGuiApp.widget (tabWidgetSweeps self) (tabWidgetSweeps_currentIndex self)
    = Return (TransferTab VgStart VgStop VgStep VdText) ->
  exists VdList,
    list_comprehension (Transfer._string_to_Vd float) (split_comma VdText)
      = Return VdList /\
    length VdList = length (split_comma VdText) /\
    MeasureThread.mfunction th (MeasureThread.keithley th)
                            (MeasureThread.params th) =
      transferMeasurement driver (MeasureThread.keithley th)
        (VSmu (currentText (comboBoxGateSMU self)))
        (VSmu (currentText (comboBoxDrainSMU self)))
        (VFloat VgStart) (VFloat VgStop) (VFloat VgStep) (VList VdList)
        (VFloat (scienDSpinBoxInt self))
        (VFloat (scienDSpinBoxSettling self))
        (VBool (negb (comboBoxSweepType self =? 0)%Z)).
Proof.
  intros H Hs Hw.
  destruct (started_thread_carries_settings float driver _ _ _ _ H Hs)
    as ((T1 & T2 & T3 & T4 & T5) & tw & Hw' & Hm & Htab).
  rewrite Hw in Hw'. injection Hw' as <-.
  destruct Htab as (V1 & V2 & V3 & VdList & Hl & V4).
  exists VdList. split; [exact Hl|]. split.
  - clear -Hl. revert VdList Hl.
    induction (split_comma VdText) as [|x xs IH]; intros l Hl; simpl in Hl.
    + now injection Hl as <-.
    + destruct (Transfer._string_to_Vd float x); [|discriminate Hl].
      destruct (list_comprehension _ xs) as [ys|]; [|discriminate Hl].
      injection Hl as <-. simpl. f_equal. now apply IH.
  - rewrite Hm. simpl. unfold Transfer.mfunction, getitem.
    rewrite T1, T2, T3, T4, T5, V1, V2, V3, V4. reflexivity.
Qed.

Lemma X14_transfer_thread_calls_driver_witness :
  let self := example_app false (TransferTab 0 10 1 "0, trailing") (1 # 50) in
  exists th VdList,
    list_comprehension (Transfer._string_to_Vd decimal_literal)
                       (split_comma "0, trailing") = Return VdList /\
    length VdList = length (split_comma "0, trailing") /\
    MeasureThread.mfunction th (MeasureThread.keithley th)
                            (MeasureThread.params th) =
      transferMeasurement quiet_driver (MeasureThread.keithley th)
        (VSmu (currentText (comboBoxGateSMU self)))
        (VSmu (currentText (comboBoxDrainSMU self)))
        (VFloat 0) (VFloat 10) (VFloat 1) (VList VdList)
        (VFloat (scienDSpinBoxInt self))
        (VFloat (scienDSpinBoxSettling self))
        (VBool (negb (comboBoxSweepType self =? 0)%Z)).
Proof.
  intros self.
  pose proof (on_sweep_clicked_reaches_check decimal_literal quiet_driver self
                (TransferTab 0 10 1 "0, trailing")
                (<["VdList" := VList [AFloat 0; AStr "trailing"]]>
                   (<["VgStep" := VFloat 1]>
                      (<["VgStop" := VFloat 10]>
                         (<["VgStart" := VFloat 0]>
                            {[ "Measurement" := VStr "transfer" ]}))))) as E.
  cbv zeta in E.
  assert (tInt_out_of_range self = false) as Hin by (vm_compute; reflexivity).
  rewrite Hin in E.
  match type of E with
  | context [with_started _ (?t :: _)] => exists t
  end.
  eapply X14_transfer_thread_calls_driver.
  - apply E.
    + reflexivity.
    + intros name [<-|[<-|[]]]; vm_compute; eauto.
    + reflexivity.
    + intros a. reflexivity.
    + vm_compute; eauto.
    + vm_compute; eauto.
    + vm_compute. discriminate.
  - reflexivity.
  - reflexivity.
Defined.

(** Extra X15.  The thread that a click starts for the IV tab builds the
    set-point list from the three voltages of the tab, looks up the SMU
    named in the tab's combo box, hands both with tInt, the delay and the
    pulsed flag to [voltageSweepSingleSMU], resets the instrument, and
    returns the two lists the driver gave as IV sweep data. *)
Theorem X15_iv_thread_calls_driver
    (float : string -> option Q) (driver : Driver)
    (self self' : App) (r : result unit) (th : MeasureThread.t)
    (VStart VStop VStep : Q) (smu_sweep : string) :
  KeithleyGuiApp._on_sweep_clicked float driver self = (self', r) ->
  started self' = th :: started self ->
  KeithleyGuiApp.widget (tabWidgetSweeps self) (tabWidgetSweeps_currentIndex self)
    = Return (IVTab VStart VStop VStep smu_sweep) ->
  let k := MeasureThread.keithley th in
  MeasureThread.mfunction th k (MeasureThread.params th) =
    (sweeplist ← IV.sweeplist VStart VStop VStep;
     smu ← getattr k smu_sweep;
     '(vSweep, iSweep) ←
        voltageSweepSingleSMU driver k smu sweeplist
          (VFloat (scienDSpinBoxInt self))
          (VFloat (scienDSpinBoxSettling self))
          (VBool (negb (comboBoxSweepType self =? 0)%Z));
     reset driver k ;;
     mret (IVSweepData vSweep iSweep)).
Proof.
  intros H Hs Hw k.
  destruct (started_thread_carries_settings float driver _ _ _ _ H Hs)
    as ((T1 & T2 & T3 & T4 & T5) & tw & Hw' & Hm & Htab).
  rewrite Hw in Hw'. injection Hw' as <-.
  destruct Htab as (V1 & V2 & V3 & V4).
  rewrite Hm. simpl. unfold IV.mfunction, get_float, getitem.
  rewrite T1, T2, T5, V1, V2, V3, V4. reflexivity.
Qed.

(** Extra X16.  A degenerate IV request never reaches the instrument:
    when the dictionary holds [VStart = VStop] or [VStep = 0], the
    measurement function raises the error of [np.arange], whatever the
    driver is and before any of its calls. *)
Theorem X16_degenerate_iv_never_reaches_driver
    (p : gmap string pyval) (VStart VStop VStep : Q) :
  p !! "VStart" = Some (VFloat VStart) ->
  p !! "VStop" = Some (VFloat VStop) ->
  p !! "VStep" = Some (VFloat VStep) ->
  VStart == VStop \/ VStep == 0 ->
  exists e,
    (e = ValueError "arange: cannot compute length" \/
     e = OverflowError "arange: overflow while computing length") /\
    forall (driver : Driver) (k : Keithley),
      IV.mfunction driver k p = Raise e.
Proof.
  intros H1 H2 H3 Hdeg.
  assert (exists e,
            (e = ValueError "arange: cannot compute length" \/
             e = OverflowError "arange: overflow while computing length") /\
            IV.sweeplist VStart VStop VStep = Raise e) as (e & He & Hl).
  { assert (IV.step VStart VStop VStep == 0) as Hz.
    { unfold IV.step. destruct Hdeg as [Hd|Hd].
      - rewrite np_sign_zero by lra. ring.
      - rewrite Hd. change (Qabs 0) with 0. ring. }
    unfold IV.sweeplist, np_arange. rewrite (Qeq_bool_true _ Hz).
    destruct (Qeq_bool _ 0); eauto. }
  exists e. split; [exact He|]. intros driver k.
  unfold IV.mfunction, get_float, getitem. rewrite H1, H2, H3.
  cbn [mbind result_bind]. rewrite Hl. reflexivity.
Qed.

Lemma X16_degenerate_iv_never_reaches_driver_witness :
  exists e,
    (e = ValueError "arange: cannot compute length" \/
     e = OverflowError "arange: overflow while computing length") /\
    forall (driver : Driver) (k : Keithley),
      IV.mfunction driver k (MeasureThread.params (example_iv_thread 0 0 1))
      = Raise e.
Proof.
  apply (X16_degenerate_iv_never_reaches_driver _ 0 0 1).
  - vm_compute; reflexivity.
  - vm_compute; reflexivity.
  - vm_compute; reflexivity.
  - left. reflexivity.
Defined.

Lemma X15_iv_thread_calls_driver_witness :
  let self := example_app false (IVTab 0 1 (1 # 2) "smua") (1 # 50) in
  exists th,
    let k := MeasureThread.keithley th in
    MeasureThread.mfunction th k (MeasureThread.params th) =
      (sweeplist ← IV.sweeplist 0 1 (1 # 2);
       smu ← getattr k "smua";
       '(vSweep, iSweep) ←
          voltageSweepSingleSMU quiet_driver k smu sweeplist
            (VFloat (scienDSpinBoxInt self))
            (VFloat (scienDSpinBoxSettling self))
            (VBool (negb (comboBoxSweepType self =? 0)%Z));
       reset quiet_driver k ;;
       mret (IVSweepData vSweep iSweep)).
Proof.
  intros self.
  pose proof (on_sweep_clicked_reaches_check decimal_literal quiet_driver self
                (IVTab 0 1 (1 # 2) "smua")
                (<["smu_sweep" := VStr "smua"]>
                   (<["VStep" := VFloat (1 # 2)]>
                      (<["VStop" := VFloat 1]>
                         (<["VStart" := VFloat 0]>
                            {[ "Measurement" := VStr "iv" ]}))))) as E.
  cbv zeta in E.
  assert (tInt_out_of_range self = false) as Hin by (vm_compute; reflexivity).
  rewrite Hin in E.
  match type of E with
  | context [with_started _ (?t :: _)] => exists t
  end.
  eapply X15_iv_thread_calls_driver.
  - apply E.
    + reflexivity.
    + intros name [<-|[<-|[]]]; vm_compute; eauto.
    + reflexivity.
    + intros a. reflexivity.
    + vm_compute; eauto.
    + vm_compute; eauto.
    + vm_compute. discriminate.
  - reflexivity.
  - reflexivity.
Defined.

(** ** Connection poller: repeated polls *)

(** Extra X17.  A poll leaves alone everything but the six widgets of the
    interface state and the driver's connection: the save action, the
    dialogs, the threads, the sweep data and the SMU objects are as
    before.  Polling again with the same outcome of the model query
    changes nothing more. *)
Theorem X17_poll_idempotent_and_framed (q : model_query) (self : App) :
  let self' := KeithleyGuiApp._update_gui_connection q self in
  KeithleyGuiApp._update_gui_connection q self' = self' /\
  actionSaveSweepData (gui self') = actionSaveSweepData (gui self) /\
  dialogs self' = dialogs self /\
  started self' = started self /\
  measureThread self' = measureThread self /\
  sweep_data self' = sweep_data self /\
  smus (keithley self') = smus (keithley self) /\
  busy (keithley self') = busy (keithley self) /\
  (connected (keithley self) = false -> connected (keithley self') = false).
Proof.
  unfold KeithleyGuiApp._update_gui_connection.
  destruct self as [[c b f m ab] g ? ? ? ? ? ? ? ? ? ? ? ?]. simpl.
  destruct c, b, q; simpl; repeat split; auto.
Qed.

(** ** Drain-voltage list of the transfer tab *)

Section DrainList.

Variable float : string -> option Q.

Lemma split_comma_nonempty (s : string) : (1 <= length (split_comma s))%nat.
Proof.
  induction s as [|c s IH]; simpl; [lia|].
  destruct (Ascii.eqb c ","); simpl; [lia|].
  destruct (split_comma s); simpl in *; lia.
Qed.

Lemma vd_field_accepted (x : string) :
  (vd_field_ok float x = true ->
   exists v, Transfer._string_to_Vd float x = Return v) /\
  (vd_field_ok float x = false ->
   Transfer._string_to_Vd float x = Raise (ValueError "Invalid drain voltage.")).
Proof.
  unfold vd_field_ok, Transfer._string_to_Vd.
  destruct (float x); [|destruct (str_in "trailing" x)];
    split; try discriminate; eauto.
Qed.

Lemma drain_list_parses (l : list string) :
  (forallb (vd_field_ok float) l = true ->
   exists r, list_comprehension (Transfer._string_to_Vd float) l = Return r /\
             length r = length l) /\
  (forallb (vd_field_ok float) l = false ->
   list_comprehension (Transfer._string_to_Vd float) l
     = Raise (ValueError "Invalid drain voltage.")).
Proof.
  induction l as [|x xs [IHok IHbad]]; simpl.
  - split; [intros _; now exists [] | discriminate].
  - destruct (vd_field_accepted x) as [Hok Hbad].
    destruct (vd_field_ok float x); simpl.
    + destruct (Hok eq_refl) as [v ->]. split; intros H.
      * destruct (IHok H) as [r [-> Hr]]. eexists. split; [reflexivity|].
        simpl. now rewrite Hr.
      * now rewrite (IHbad H).
    + rewrite (Hbad eq_refl). split; [discriminate | reflexivity].
Qed.

End DrainList.

(** Extra X18.  The transfer tab splits its drain-voltage text at the
    commas, so there is always at least one field.  When every field is a
    float or contains 'trailing', the tab returns its dictionary with one
    drain voltage per field; as soon as one field is neither (an empty
    field after a trailing comma, say), it raises ValueError('Invalid
    drain voltage.') and returns no dictionary. *)
Theorem X18_transfer_tab_drain_fields
    (float : string -> option Q) (VgStart VgStop VgStep : Q)
    (VdText : string) (a : App) :
  let fields := split_comma VdText in
  let out := snd (Transfer._on_sweep_clicked float VgStart VgStop VgStep VdText a) in
  (1 <= length fields)%nat /\
  (forallb (vd_field_ok float) fields = true ->
   exists p VdList,
     out = Return (Some p) /\
     p !! "VdList" = Some (VList VdList) /\
     length VdList = length fields) /\
  (forallb (vd_field_ok float) fields = false ->
   out = Raise (ValueError "Invalid drain voltage.")).
Proof.
  intros fields out. split; [apply split_comma_nonempty|].
  subst out fields.
  unfold Transfer._on_sweep_clicked, showMessage, modify, lift, mbind, M_bind,
    mret, M_ret.
  destruct (drain_list_parses float (split_comma VdText)) as [Hok Hbad].
  split; intros H.
  - destruct (Hok H) as [r [-> Hr]]. simpl. eexists _, r.
    split; [reflexivity|]. split; [now simplify_map_eq | exact Hr].
  - now rewrite (Hbad H).
Qed.

(** ** Measurement functions on an incomplete dictionary *)

(** Extra X19.  The transfer and output measurement functions read their
    nine settings from the dictionary in a fixed order before they call
    the driver: when a key is absent they raise KeyError for the first
    absent one, whatever the driver is. *)
Theorem X19_mfunction_missing_key (p : gmap string pyval) (key : string) :
  (first_missing p ["smu_gate"; "smu_drain"; "VgStart"; "VgStop"; "VgStep";
                    "VdList"; "tInt"; "delay"; "pulsed"] = Some key ->
   forall (driver : Driver) (k : Keithley),
     Transfer.mfunction driver k p = Raise (KeyError key)) /\
  (first_missing p ["smu_gate"; "smu_drain"; "VdStart"; "VdStop"; "VdStep";
                    "VgList"; "tInt"; "delay"; "pulsed"] = Some key ->
   forall (driver : Driver) (k : Keithley),
     Output.mfunction driver k p = Raise (KeyError key)).
Proof.
  unfold first_missing, Transfer.mfunction, Output.mfunction, getitem.
  split; intros H driver k; simpl in H;
    repeat match type of H with
           | context [p !! ?x] =>
               destruct (p !! x); cbn [mbind result_bind];
               [|now injection H as <-]
           end;
    discriminate H.
Qed.

Lemma X19_mfunction_missing_key_witness :
  Transfer.mfunction quiet_driver (mkKeithley true false 50 two_smus false)
    (<["smu_drain" := VSmu "smub"]> {[ "smu_gate" := VSmu "smua" ]})
  = Raise (KeyError "VgStart").
Proof.
  apply (proj1 (X19_mfunction_missing_key _ "VgStart")).
  vm_compute; reflexivity.
Defined.

(** ** A thread that ends with an exception *)

(** Extra X20.  When the measurement function raises, the run of the
    thread sends nothing the main window reacts to: the window is left
    exactly as it was, in the busy state the click put it in, with the
    save action and the sweep data untouched. *)
Theorem X20_failed_run_leaves_window_busy
    (th : MeasureThread.t) (e : exn) (self : App) :
  MeasureThread.mfunction th (MeasureThread.keithley th)
                          (MeasureThread.params th) = Raise e ->
  KeithleyGuiApp.deliver_all (fst (MeasureThread.run th)) self
    = (self, Return tt) /\
  (in_state Busy (gui self) ->
   in_state Busy
     (gui (fst (KeithleyGuiApp.deliver_all (fst (MeasureThread.run th)) self)))).
Proof.
  intros H. rewrite (run_raises th e H). simpl.
  unfold mbind, M_bind, mret, M_ret. simpl. split; [reflexivity|tauto].
Qed.

Lemma X20_failed_run_leaves_window_busy_witness :
  let self := example_app false (IVTab 0 0 1 "smua") (1 # 50) in
  KeithleyGuiApp.deliver_all
    (fst (MeasureThread.run (example_iv_thread 0 0 1))) self
  = (self, Return tt).
Proof.
  intros self.
  apply (X20_failed_run_leaves_window_busy (example_iv_thread 0 0 1)
           (ValueError "arange: cannot compute length") self).
  vm_compute; reflexivity.
Defined.

(** ** Line frequency zero *)

(** Extra X21.  When the instrument reports a line frequency of 0, the
    bounds of tInt cannot be computed: the click raises ZeroDivisionError
    after the SMU settings are written and the tab's status message is
    shown; no dialog appears and no thread is created. *)
Theorem X21_zero_line_frequency_raises
    (float : string -> option Q) (driver : Driver)
    (self : App) (tabWidget : MeasurementTab) (p0 : gmap string pyval) :
  busy (keithley self) = false ->
  (forall name, In name (smu_list self) ->
                is_Some (smus (keithley self) !! name)) ->
  KeithleyGuiApp.widget (tabWidgetSweeps self) (tabWidgetSweeps_currentIndex self)
    = Return tabWidget ->
  (forall a, snd (KeithleyGuiApp.tab_on_sweep_clicked float tabWidget a)
             = Return (Some p0)) ->
  is_Some (smus (keithley self) !! currentText (comboBoxGateSMU self)) ->
  is_Some (smus (keithley self) !! currentText (comboBoxDrainSMU self)) ->
  linefreq (keithley self) == 0 ->
  KeithleyGuiApp._on_sweep_clicked float driver self =
    (at_check float self tabWidget,
     Raise (ZeroDivisionError "float division by zero")) /\
  statusBar (gui (at_check float self tabWidget)) = recording_message tabWidget /\
  dialogs (at_check float self tabWidget) = dialogs self /\
  started (at_check float self tabWidget) = started self /\
  measureThread (at_check float self tabWidget) = measureThread self.
Proof.
  intros Hb Hall Hw Htab Hg Hd Hf.
  destruct (at_check_form float self tabWidget Hall) as (m & E1 & Hm & Hbase).
  split; [|rewrite Hbase; simpl; auto].
  unfold KeithleyGuiApp._on_sweep_clicked. unfold mbind, M_bind, gets.
  rewrite Hb, E1. unfold lift. simpl. rewrite Hw.
  unfold at_check in Hbase. rewrite E1 in Hbase. simpl fst in Hbase.
  match goal with
  | |- context [KeithleyGuiApp.tab_on_sweep_clicked float tabWidget ?a] =>
      destruct (KeithleyGuiApp.tab_on_sweep_clicked float tabWidget a)
        as [a2 r2] eqn:E3;
      pose proof (Htab a) as Hr; rewrite E3 in Hr; simpl in Hr; subst r2
  end.
  simpl fst in Hbase. subst a2.
  unfold at_check. rewrite E1. simpl fst. rewrite E3. simpl fst.
  simpl setitem.
  unfold KeithleyGuiApp.getattr_smu, mbind, M_bind, gets, lift, mret, M_ret.
  simpl. unfold getattr.
  destruct (Hm _ Hg) as [smug Hsg]. destruct (Hm _ Hd) as [smud Hsd].
  change (smus (with_smus (keithley self) m)) with m.
  rewrite Hsg. simpl.
  change (smus (with_smus (keithley self) m)) with m.
  rewrite Hsd. simpl.
  unfold get_float, getitem.
  rewrite !lookup_insert_ne, lookup_insert_eq by discriminate.
  unfold py_div. rewrite (Qeq_bool_true _ Hf). reflexivity.
Qed.

Lemma X21_zero_line_frequency_raises_witness :
  let self :=
    mkApp (mkKeithley true false 0 two_smus false)
          (mkGui true false false true "    Ready." true false)
          [("smua", mkSmuTab 0 (1 # 10) 20)]
          [IVTab 0 1 (1 # 2) "smua"] 0 (1 # 50) (1 # 2)
          (mkComboBox ["smua"; "smub"] 0) (mkComboBox ["smua"; "smub"] 1)
          0 [] None [] None in
  snd (KeithleyGuiApp._on_sweep_clicked decimal_literal quiet_driver self)
  = Raise (ZeroDivisionError "float division by zero").
Proof.
  intros self.
  destruct (X21_zero_line_frequency_raises decimal_literal quiet_driver self
              (IVTab 0 1 (1 # 2) "smua")
              (<["smu_sweep" := VStr "smua"]>
                 (<["VStep" := VFloat (1 # 2)]>
                    (<["VStop" := VFloat 1]>
                       (<["VStart" := VFloat 0]>
                          {[ "Measurement" := VStr "iv" ]})))))
    as [E _].
  - reflexivity.
  - intros name [<-|[]]; vm_compute; eauto.
  - reflexivity.
  - intros a. reflexivity.
  - vm_compute; eauto.
  - vm_compute; eauto.
  - reflexivity.
  - rewrite E. reflexivity.
Defined.
